(** * A 4-bit load/store processor: behavioural model and its properties

    Shallow embedding of the processor engine of [simulator_gui.py] and
    [simulator_gui_enhanced.py]: the gate-level primitives ([XOR_1b],
    [FA_1b]), the ripple adder [Adder_4b], the ALU [ALU_4b] and the
    [Processor] class with its five-state control FSM.

    Modelling conventions.
    - A Python [int] is a [Z]; [>>], [<<], [&], [|] and [~] are
      [Z.shiftr], [Z.shiftl], [Z.land], [Z.lor] and [Z.lnot], which agree
      with Python on negative numbers too.
    - The one-bit values flowing through [XOR_1b] and [FA_1b] are the
      Python objects [0], [1], [False], [True]; [and], [or] and [not] only
      look at their truth value and [<<] only at their numeric value, so a
      bit is a [bool] here, [truthy] reads an [int] as a bit and [Z.b2z]
      reads a bit as an [int].
    - A method that mutates [self] is a computation in a state monad over
      the [Processor] record; an uncaught Python exception is the [inr]
      outcome, and the mutations made before the exception are kept.
    - An attribute that [__init__] does not create is an [option] field,
      [None] until the first assignment; reading it while [None] raises
      [AttributeError].
    - [execution_log] keeps the cycle number and the values interpolated
      in each message instead of the formatted text. *)

From stdpp Require Import base numbers list strings.

Local Open Scope Z_scope.

(** ** Python helpers *)

(** [range(n)] *)
Definition range (n : nat) : list Z := map Z.of_nat (seq 0 n).

(** Truth value of an [int]. *)
Definition truthy (z : Z) : bool := negb (z =? 0).

(** Position denoted by a Python index on a sequence of length [len]:
    negative indices count from the end, anything else out of range has
    no position. *)
Definition py_index (len : nat) (i : Z) : option nat :=
  if 0 <=? i then
    if i <? Z.of_nat len then Some (Z.to_nat i) else None
  else
    if - Z.of_nat len <=? i then Some (Z.to_nat (Z.of_nat len + i)) else None.

(** [l[i]]; [None] stands for [IndexError]. *)
Definition py_getitem {A} (l : list A) (i : Z) : option A :=
  match py_index (length l) i with
  | Some k => l !! k
  | None => None
  end.

(** [l[i] = v]; [None] stands for [IndexError]. *)
Definition py_setitem {A} (l : list A) (i : Z) (v : A) : option (list A) :=
  match py_index (length l) i with
  | Some k => Some (<[k:=v]> l)
  | None => None
  end.

(** ** Exceptions and the method monad *)

Inductive exn : Set := AttributeError | IndexError.

Definition result (A : Type) : Type := (A + exn)%type.

Definition M (S A : Type) : Type := S -> S * result A.

Definition ret {S A} (a : A) : M S A := fun s => (s, inl a).

Definition raise {S A} (e : exn) : M S A := fun s => (s, inr e).

Definition bind {S A B} (m : M S A) (f : A -> M S B) : M S B :=
  fun s =>
    match m s with
    | (s', inl a) => f a s'
    | (s', inr e) => (s', inr e)
    end.

(** Read of an attribute that always exists. *)
Definition get {S A} (f : S -> A) : M S A := fun s => (s, inl (f s)).

(** Read of an attribute that may not have been created yet. *)
Definition getattr {S A} (f : S -> option A) : M S A :=
  fun s =>
    match f s with
    | Some a => (s, inl a)
    | None => (s, inr AttributeError)
    end.

(** Assignment to attributes. *)
Definition modify {S} (f : S -> S) : M S unit := fun s => (f s, inl tt).

(** Result of a subscript. *)
Definition subscript {S A} (o : option A) : M S A :=
  match o with
  | Some a => ret a
  | None => raise IndexError
  end.

Declare Scope method_scope.
Delimit Scope method_scope with method.
Notation "'do' x <- m ; k" := (bind m (fun x => k))
  (at level 10, x name, m at level 100, k at level 200) : method_scope.

(** ** Gate-level primitives (identical in both simulator files) *)

(** [XOR_1b.compute]: [(a and not b) or (not a and b)]. *)
Definition XOR_1b_compute (a b : bool) : bool :=
  (a && negb b) || (negb a && b).

(** [FA_1b.compute]: returns [(s, cout)]. *)
Definition FA_1b_compute (a b cin : bool) : bool * bool :=
  let xor_ab := XOR_1b_compute a b in
  let s := XOR_1b_compute xor_ab cin in
  let cout := (a && b) || (cin && xor_ab) in
  (s, cout).

(** Body of the [for i in range(4)] loop of [Adder_4b.compute], on the
    loop-carried pair [(result, carry)]. *)
Definition Adder_4b_body (a b : Z) (acc : Z * bool) (i : Z) : Z * bool :=
  let '(result, carry) := acc in
  let a_bit := Z.land (Z.shiftr a i) 1 in
  let b_bit := Z.land (Z.shiftr b i) 1 in
  let '(s_bit, carry) := FA_1b_compute (truthy a_bit) (truthy b_bit) carry in
  (Z.lor result (Z.shiftl (Z.b2z s_bit) i), carry).

(** [Adder_4b.compute]: returns [(result & 0xF, carry)]. *)
Definition Adder_4b_compute (a b : Z) (cin : bool) : Z * bool :=
  let '(result, carry) := fold_left (Adder_4b_body a b) (range 4) (0, cin) in
  (Z.land result 15, carry).

(** Body of the loop of the XOR branch of [ALU_4b.compute]. *)
Definition ALU_xor_body (a b : Z) (result : Z) (i : Z) : Z :=
  let a_bit := Z.land (Z.shiftr a i) 1 in
  let b_bit := Z.land (Z.shiftr b i) 1 in
  let xor_bit := XOR_1b_compute (truthy a_bit) (truthy b_bit) in
  Z.lor result (Z.shiftl (Z.b2z xor_bit) i).

(** [ALU_4b.compute]: returns [(result, cout)]. *)
Definition ALU_4b_compute (a b s : Z) (cin : bool) : Z * bool :=
  let a := Z.land a 15 in
  let b := Z.land b 15 in
  let s := Z.land s 7 in
  if s =? 0 then (a, false)
  else if s =? 1 then Adder_4b_compute a b cin
  else if s =? 2 then Adder_4b_compute a (Z.land (Z.lnot b) 15) true
  else if s =? 3 then (Z.land a b, false)
  else if s =? 4 then (Z.lor a b, false)
  else if s =? 5 then (fold_left (ALU_xor_body a b) (range 4) 0, false)
  else if s =? 6 then (Z.land (Z.lnot a) 15, false)
  else (0, false).

(** [FSMState] and its [.value]. *)
Inductive FSMState : Set := INIT | FETCH | LOAD | EXECUTE | STORE.

Definition FSMState_value (s : FSMState) : Z :=
  match s with
  | INIT => 0
  | FETCH => 1
  | LOAD => 2
  | EXECUTE => 3
  | STORE => 4
  end.

(** The values interpolated in the messages passed to [Processor.log]. *)
Inductive LogMsg : Set :=
| MsgInit
| MsgComplete
| MsgFetch (pc instr : Z)
| MsgLoad (op1 mem_value : Z)
| MsgExecute (op_name : string) (alu_a alu_b alu_s alu_result : Z)
| MsgStore (op1 alu_result : Z).

(** One line of [execution_log]: the cycle number and the message. *)
Definition LogEntry : Set := (Z * LogMsg)%type.

(** The table of mnemonics indexed by the opcode in EXECUTE. *)
Definition op_names : list string :=
  ["STO"; "ADD"; "SUB"; "AND"; "OR"; "XOR"; "NOT"]%string.

(** ** Drivers and observations *)

(** A call a driver makes on a processor. *)
Inductive call : Set :=
| CallClock
| CallReset
| CallLoad (prog : list Z).

(** What a driver gets back from a call: [Some b] from [clock_cycle],
    [None] from the two methods that return nothing, or the exception. *)
Definition call_result : Set := (option bool + exn)%type.

(** The processor state a driver reads after a call. *)
Record Observation : Set := mkObservation {
  obs_memory : list Z;
  obs_pc : Z;
  obs_state : FSMState;
  obs_alu_result : Z;
  obs_alu_cout : bool
}.

(** The three decoded fields of an instruction word, as the LOAD state
    computes them. *)
Definition opcode_of (instr : Z) : Z := Z.land (Z.shiftr instr 8) 7.
Definition addr_of (instr : Z) : Z := Z.land (Z.shiftr instr 4) 15.
Definition imm_of (instr : Z) : Z := Z.land instr 15.

(** ** The processor of [simulator_gui.py] *)

Module Gui.

(** [waveform_history]: a dict with six fixed keys, each bound to a list. *)
Record Waveform : Set := mkWaveform {
  clk : list Z;
  w_pc : list Z;
  w_state : list Z;
  alu_out : list Z;
  ram_addr : list Z;
  ram_data : list Z
}.

Definition empty_waveform : Waveform := mkWaveform [] [] [] [] [] [].

(** The attributes of a [Processor]. [program] is created by
    [load_program] and the four [loaded_*] attributes by the LOAD state;
    [__init__] creates the others. *)
Record Processor : Set := mkProcessor {
  memory : list Z;
  pc : Z;
  state : FSMState;
  instruction : Z;
  alu_result : Z;
  alu_cout : bool;
  cycle_count : Z;
  execution_log : list LogEntry;
  waveform_history : Waveform;
  program : option (list Z);
  loaded_op1 : option Z;
  loaded_op2 : option Z;
  loaded_opcode : option Z;
  loaded_mem : option Z
}.

(** [Processor.__init__] *)
Definition init : Processor :=
  {| memory := replicate 16 0;
     pc := 0;
     state := INIT;
     instruction := 0;
     alu_result := 0;
     alu_cout := false;
     cycle_count := 0;
     execution_log := [];
     waveform_history := empty_waveform;
     program := None;
     loaded_op1 := None;
     loaded_op2 := None;
     loaded_opcode := None;
     loaded_mem := None |}.

(** Attribute assignments. *)
Definition set_memory (v : list Z) (p : Processor) : Processor :=
  mkProcessor v (pc p) (state p) (instruction p) (alu_result p) (alu_cout p)
    (cycle_count p) (execution_log p) (waveform_history p) (program p)
    (loaded_op1 p) (loaded_op2 p) (loaded_opcode p) (loaded_mem p).

Definition set_pc (v : Z) (p : Processor) : Processor :=
  mkProcessor (memory p) v (state p) (instruction p) (alu_result p) (alu_cout p)
    (cycle_count p) (execution_log p) (waveform_history p) (program p)
    (loaded_op1 p) (loaded_op2 p) (loaded_opcode p) (loaded_mem p).

Definition set_state (v : FSMState) (p : Processor) : Processor :=
  mkProcessor (memory p) (pc p) v (instruction p) (alu_result p) (alu_cout p)
    (cycle_count p) (execution_log p) (waveform_history p) (program p)
    (loaded_op1 p) (loaded_op2 p) (loaded_opcode p) (loaded_mem p).

Definition set_instruction (v : Z) (p : Processor) : Processor :=
  mkProcessor (memory p) (pc p) (state p) v (alu_result p) (alu_cout p)
    (cycle_count p) (execution_log p) (waveform_history p) (program p)
    (loaded_op1 p) (loaded_op2 p) (loaded_opcode p) (loaded_mem p).

(** [self.alu_result, self.alu_cout = ...] *)
Definition set_alu (v : Z * bool) (p : Processor) : Processor :=
  mkProcessor (memory p) (pc p) (state p) (instruction p) (fst v) (snd v)
    (cycle_count p) (execution_log p) (waveform_history p) (program p)
    (loaded_op1 p) (loaded_op2 p) (loaded_opcode p) (loaded_mem p).

Definition set_cycle_count (v : Z) (p : Processor) : Processor :=
  mkProcessor (memory p) (pc p) (state p) (instruction p) (alu_result p)
    (alu_cout p) v (execution_log p) (waveform_history p) (program p)
    (loaded_op1 p) (loaded_op2 p) (loaded_opcode p) (loaded_mem p).

Definition set_execution_log (v : list LogEntry) (p : Processor) : Processor :=
  mkProcessor (memory p) (pc p) (state p) (instruction p) (alu_result p)
    (alu_cout p) (cycle_count p) v (waveform_history p) (program p)
    (loaded_op1 p) (loaded_op2 p) (loaded_opcode p) (loaded_mem p).

Definition set_waveform_history (v : Waveform) (p : Processor) : Processor :=
  mkProcessor (memory p) (pc p) (state p) (instruction p) (alu_result p)
    (alu_cout p) (cycle_count p) (execution_log p) v (program p)
    (loaded_op1 p) (loaded_op2 p) (loaded_opcode p) (loaded_mem p).

Definition set_program (v : list Z) (p : Processor) : Processor :=
  mkProcessor (memory p) (pc p) (state p) (instruction p) (alu_result p)
    (alu_cout p) (cycle_count p) (execution_log p) (waveform_history p)
    (Some v) (loaded_op1 p) (loaded_op2 p) (loaded_opcode p) (loaded_mem p).

(** The four assignments [self.loaded_op1 = op1] ... [self.loaded_mem =
    mem_value] of the LOAD state. *)
Definition set_loaded (op1 op2 opcode mem_value : Z) (p : Processor)
  : Processor :=
  mkProcessor (memory p) (pc p) (state p) (instruction p) (alu_result p)
    (alu_cout p) (cycle_count p) (execution_log p) (waveform_history p)
    (program p) (Some op1) (Some op2) (Some opcode) (Some mem_value).

(** [Processor.reset] *)
Definition reset (p : Processor) : Processor :=
  let p := set_pc 0 p in
  let p := set_state INIT p in
  let p := set_instruction 0 p in
  let p := set_alu (0, false) p in
  let p := set_cycle_count 0 p in
  let p := set_execution_log [] p in
  set_waveform_history empty_waveform p.

(** [Processor.load_program] *)
Definition load_program (prog : list Z) (p : Processor) : Processor :=
  let p := set_program prog p in
  set_pc 0 p.

(** [Processor.log] *)
Definition log_append (message : LogMsg) (p : Processor) : Processor :=
  set_execution_log (execution_log p ++ [(cycle_count p, message)]) p.

Definition log (message : LogMsg) : M Processor unit :=
  modify (log_append message).

(** [self.cycle_count += 1] *)
Definition tick (p : Processor) : Processor :=
  set_cycle_count (cycle_count p + 1) p.

(** The four [append]s at the top of [clock_cycle]. *)
Definition record_waveform (p : Processor) : Processor :=
  let w := waveform_history p in
  set_waveform_history
    (mkWaveform (clk w ++ [cycle_count p `mod` 2])
                (w_pc w ++ [pc p])
                (w_state w ++ [FSMState_value (state p)])
                (alu_out w ++ [alu_result p])
                (ram_addr w)
                (ram_data w)) p.

(** The two [append]s to [ram_addr] and [ram_data] in LOAD and STORE. *)
Definition record_ram (addr data : Z) (p : Processor) : Processor :=
  let w := waveform_history p in
  set_waveform_history
    (mkWaveform (clk w) (w_pc w) (w_state w) (alu_out w)
                (ram_addr w ++ [addr]) (ram_data w ++ [data])) p.

Local Open Scope method_scope.

(** The INIT branch of [clock_cycle]. *)
Definition do_init : M Processor bool :=
  do _ <- log MsgInit;
  do _ <- modify (set_state FETCH);
  ret true.

(** The FETCH branch of [clock_cycle]. *)
Definition do_fetch : M Processor bool :=
  do pc0 <- get pc;
  do prog <- getattr program;
  if Z.of_nat (length prog) <=? pc0 then
    do _ <- log MsgComplete;
    ret false
  else
    do instr <- subscript (py_getitem prog pc0);
    do _ <- modify (set_instruction instr);
    do _ <- log (MsgFetch pc0 instr);
    do _ <- modify (set_pc (pc0 + 1));
    do _ <- modify (set_state LOAD);
    ret true.

(** The LOAD branch of [clock_cycle]. *)
Definition do_load : M Processor bool :=
  do instr <- get instruction;
  let opcode := Z.land (Z.shiftr instr 8) 7 in
  let op1 := Z.land (Z.shiftr instr 4) 15 in
  let op2 := Z.land instr 15 in
  do mem <- get memory;
  do mem_value <- subscript (py_getitem mem op1);
  do _ <- log (MsgLoad op1 mem_value);
  do _ <- modify (set_loaded op1 op2 opcode mem_value);
  do _ <- modify (record_ram op1 mem_value);
  do _ <- modify (set_state EXECUTE);
  ret true.

(** The opcode dispatch of the EXECUTE branch: from [(opcode, mem_val,
    op2)] to the ALU inputs [(alu_a, alu_b, alu_s, alu_cin)]. *)
Definition alu_control (opcode mem_val op2 : Z) : Z * Z * Z * bool :=
  let alu_s := 0 in
  let alu_cin := false in
  let alu_a := mem_val in
  let alu_b := op2 in
  if opcode =? 0 then (op2, alu_b, 0, alu_cin)
  else if opcode =? 1 then (alu_a, alu_b, 1, alu_cin)
  else if opcode =? 2 then (alu_a, alu_b, 2, true)
  else if opcode =? 3 then (alu_a, alu_b, 3, alu_cin)
  else if opcode =? 4 then (alu_a, alu_b, 4, alu_cin)
  else if opcode =? 5 then (alu_a, alu_b, 5, alu_cin)
  else if opcode =? 6 then (alu_a, alu_b, 6, alu_cin)
  else (alu_a, alu_b, alu_s, alu_cin).

(** The EXECUTE branch of [clock_cycle]. *)
Definition do_execute : M Processor bool :=
  do opcode <- getattr loaded_opcode;
  do _ <- getattr loaded_op1;
  do op2 <- getattr loaded_op2;
  do mem_val <- getattr loaded_mem;
  do op_name <- subscript (py_getitem op_names opcode);
  let '(alu_a, alu_b, alu_s, alu_cin) := alu_control opcode mem_val op2 in
  let r := ALU_4b_compute alu_a alu_b alu_s alu_cin in
  do _ <- modify (set_alu r);
  do _ <- log (MsgExecute op_name alu_a alu_b alu_s (fst r));
  do _ <- modify (set_state STORE);
  ret true.

(** The STORE branch of [clock_cycle]. *)
Definition do_store : M Processor bool :=
  do mem <- get memory;
  do op1 <- getattr loaded_op1;
  do res <- get alu_result;
  do mem' <- subscript (py_setitem mem op1 res);
  do _ <- modify (set_memory mem');
  do _ <- log (MsgStore op1 res);
  do _ <- modify (record_ram op1 res);
  do _ <- modify (set_state FETCH);
  ret true.

(** [Processor.clock_cycle] *)
Definition clock_cycle : M Processor bool :=
  do _ <- modify tick;
  do _ <- modify record_waveform;
  do st <- get state;
  match st with
  | INIT => do_init
  | FETCH => do_fetch
  | LOAD => do_load
  | EXECUTE => do_execute
  | STORE => do_store
  end.

(** The loop of [run_program], [max_cycles] iterations left. *)
Fixpoint run_loop (max_cycles : nat) : M Processor bool :=
  match max_cycles with
  | O => ret false
  | S n =>
      do running <- clock_cycle;
      if running then run_loop n else ret true
  end.

(** [Processor.run_program] *)
Definition run_program (max_cycles : nat) : M Processor bool :=
  do _ <- modify reset;
  do _ <- modify (set_state FETCH);
  run_loop max_cycles.

(** One call of [clock_cycle] by a driver: the processor it leaves
    behind, and what the call returned or raised. *)
Definition step (p : Processor) : Processor := fst (clock_cycle p).

Definition outcome (p : Processor) : result bool := snd (clock_cycle p).

(** [n] successive calls, whatever each one returns or raises. *)
Fixpoint steps (n : nat) (p : Processor) : Processor :=
  match n with
  | O => p
  | S n => steps n (step p)
  end.

(** The processors on which [n] successive calls are made: the one
    before the first call, the one before the second, and so on. *)
Fixpoint before_each (n : nat) (p : Processor) : list Processor :=
  match n with
  | O => []
  | S n => p :: before_each n (step p)
  end.

(** The statements of [clock_cycle] that come before the dispatch on the
    state. *)
Definition prologue (p : Processor) : Processor := record_waveform (tick p).

Definition observe (p : Processor) : Observation :=
  mkObservation (memory p) (pc p) (state p) (alu_result p) (alu_cout p).

Definition apply_call (c : call) (p : Processor) : Processor * call_result :=
  match c with
  | CallClock =>
      let '(p', r) := clock_cycle p in
      (p', match r with inl b => inl (Some b) | inr e => inr e end)
  | CallReset => (reset p, inl None)
  | CallLoad prog => (load_program prog p, inl None)
  end.

(** The processor after a sequence of calls. *)
Definition run_calls (cs : list call) (p : Processor) : Processor :=
  fold_left (fun p c => fst (apply_call c p)) cs p.

(** What the driver sees along a sequence of calls: after each call, the
    observable state and what the call returned or raised. *)
Fixpoint trace (cs : list call) (p : Processor)
  : list (Observation * call_result) :=
  match cs with
  | [] => []
  | c :: cs =>
      let '(p', r) := apply_call c p in
      (observe p', r) :: trace cs p'
  end.

End Gui.

(** ** The processor of [simulator_gui_enhanced.py] *)

Module Enhanced.

(** [waveform_history]: here with a seventh key, ['instruction']. *)
Record Waveform : Set := mkWaveform {
  clk : list Z;
  w_pc : list Z;
  w_state : list Z;
  alu_out : list Z;
  ram_addr : list Z;
  ram_data : list Z;
  w_instruction : list Z
}.

(** [{k: [] for k in self.waveform_history}]: the same keys, all lists
    empty. *)
Definition empty_waveform : Waveform := mkWaveform [] [] [] [] [] [] [].

(** Here [__init__] creates [program] too; the [loaded_*] attributes are
    still created by the LOAD state. *)
Record Processor : Set := mkProcessor {
  memory : list Z;
  pc : Z;
  state : FSMState;
  instruction : Z;
  alu_result : Z;
  alu_cout : bool;
  cycle_count : Z;
  execution_log : list LogEntry;
  program : list Z;
  waveform_history : Waveform;
  loaded_op1 : option Z;
  loaded_op2 : option Z;
  loaded_opcode : option Z;
  loaded_mem : option Z
}.

(** [Processor.__init__] *)
Definition init : Processor :=
  {| memory := replicate 16 0;
     pc := 0;
     state := INIT;
     instruction := 0;
     alu_result := 0;
     alu_cout := false;
     cycle_count := 0;
     execution_log := [];
     program := [];
     waveform_history := empty_waveform;
     loaded_op1 := None;
     loaded_op2 := None;
     loaded_opcode := None;
     loaded_mem := None |}.

(** Attribute assignments. *)
Definition set_memory (v : list Z) (p : Processor) : Processor :=
  mkProcessor v (pc p) (state p) (instruction p) (alu_result p) (alu_cout p)
    (cycle_count p) (execution_log p) (program p) (waveform_history p)
    (loaded_op1 p) (loaded_op2 p) (loaded_opcode p) (loaded_mem p).

Definition set_pc (v : Z) (p : Processor) : Processor :=
  mkProcessor (memory p) v (state p) (instruction p) (alu_result p) (alu_cout p)
    (cycle_count p) (execution_log p) (program p) (waveform_history p)
    (loaded_op1 p) (loaded_op2 p) (loaded_opcode p) (loaded_mem p).

Definition set_state (v : FSMState) (p : Processor) : Processor :=
  mkProcessor (memory p) (pc p) v (instruction p) (alu_result p) (alu_cout p)
    (cycle_count p) (execution_log p) (program p) (waveform_history p)
    (loaded_op1 p) (loaded_op2 p) (loaded_opcode p) (loaded_mem p).

Definition set_instruction (v : Z) (p : Processor) : Processor :=
  mkProcessor (memory p) (pc p) (state p) v (alu_result p) (alu_cout p)
    (cycle_count p) (execution_log p) (program p) (waveform_history p)
    (loaded_op1 p) (loaded_op2 p) (loaded_opcode p) (loaded_mem p).

(** [self.alu_result, self.alu_cout = ...] *)
Definition set_alu (v : Z * bool) (p : Processor) : Processor :=
  mkProcessor (memory p) (pc p) (state p) (instruction p) (fst v) (snd v)
    (cycle_count p) (execution_log p) (program p) (waveform_history p)
    (loaded_op1 p) (loaded_op2 p) (loaded_opcode p) (loaded_mem p).

Definition set_cycle_count (v : Z) (p : Processor) : Processor :=
  mkProcessor (memory p) (pc p) (state p) (instruction p) (alu_result p)
    (alu_cout p) v (execution_log p) (program p) (waveform_history p)
    (loaded_op1 p) (loaded_op2 p) (loaded_opcode p) (loaded_mem p).

Definition set_execution_log (v : list LogEntry) (p : Processor) : Processor :=
  mkProcessor (memory p) (pc p) (state p) (instruction p) (alu_result p)
    (alu_cout p) (cycle_count p) v (program p) (waveform_history p)
    (loaded_op1 p) (loaded_op2 p) (loaded_opcode p) (loaded_mem p).

Definition set_program (v : list Z) (p : Processor) : Processor :=
  mkProcessor (memory p) (pc p) (state p) (instruction p) (alu_result p)
    (alu_cout p) (cycle_count p) (execution_log p) v (waveform_history p)
    (loaded_op1 p) (loaded_op2 p) (loaded_opcode p) (loaded_mem p).

Definition set_waveform_history (v : Waveform) (p : Processor) : Processor :=
  mkProcessor (memory p) (pc p) (state p) (instruction p) (alu_result p)
    (alu_cout p) (cycle_count p) (execution_log p) (program p) v
    (loaded_op1 p) (loaded_op2 p) (loaded_opcode p) (loaded_mem p).

(** The four [loaded_*] assignments of the LOAD state. *)
Definition set_loaded (op1 op2 opcode mem_value : Z) (p : Processor)
  : Processor :=
  mkProcessor (memory p) (pc p) (state p) (instruction p) (alu_result p)
    (alu_cout p) (cycle_count p) (execution_log p) (program p)
    (waveform_history p) (Some op1) (Some op2) (Some opcode) (Some mem_value).

(** [Processor.reset] *)
Definition reset (p : Processor) : Processor :=
  let p := set_pc 0 p in
  let p := set_state INIT p in
  let p := set_instruction 0 p in
  let p := set_alu (0, false) p in
  let p := set_cycle_count 0 p in
  let p := set_execution_log [] p in
  set_waveform_history empty_waveform p.

(** [Processor.load_program] *)
Definition load_program (prog : list Z) (p : Processor) : Processor :=
  let p := set_program prog p in
  set_pc 0 p.

(** [Processor.log] *)
Definition log_append (message : LogMsg) (p : Processor) : Processor :=
  set_execution_log (execution_log p ++ [(cycle_count p, message)]) p.

Definition log (message : LogMsg) : M Processor unit :=
  modify (log_append message).

(** [self.cycle_count += 1] *)
Definition tick (p : Processor) : Processor :=
  set_cycle_count (cycle_count p + 1) p.

(** The five [append]s at the top of [clock_cycle]. *)
Definition record_waveform (p : Processor) : Processor :=
  let w := waveform_history p in
  set_waveform_history
    (mkWaveform (clk w ++ [cycle_count p `mod` 2])
                (w_pc w ++ [pc p])
                (w_state w ++ [FSMState_value (state p)])
                (alu_out w ++ [alu_result p])
                (ram_addr w)
                (ram_data w)
                (w_instruction w ++ [instruction p])) p.

(** The two [append]s to [ram_addr] and [ram_data] in LOAD and STORE. *)
Definition record_ram (addr data : Z) (p : Processor) : Processor :=
  let w := waveform_history p in
  set_waveform_history
    (mkWaveform (clk w) (w_pc w) (w_state w) (alu_out w)
                (ram_addr w ++ [addr]) (ram_data w ++ [data])
                (w_instruction w)) p.

Local Open Scope method_scope.

(** The INIT branch of [clock_cycle]. *)
Definition do_init : M Processor bool :=
  do _ <- log MsgInit;
  do _ <- modify (set_state FETCH);
  ret true.

(** The FETCH branch of [clock_cycle]. *)
Definition do_fetch : M Processor bool :=
  do pc0 <- get pc;
  do prog <- get program;
  if Z.of_nat (length prog) <=? pc0 then
    do _ <- log MsgComplete;
    ret false
  else
    do instr <- subscript (py_getitem prog pc0);
    do _ <- modify (set_instruction instr);
    do _ <- log (MsgFetch pc0 instr);
    do _ <- modify (set_pc (pc0 + 1));
    do _ <- modify (set_state LOAD);
    ret true.

(** The LOAD branch of [clock_cycle]. *)
Definition do_load : M Processor bool :=
  do instr <- get instruction;
  let opcode := Z.land (Z.shiftr instr 8) 7 in
  let op1 := Z.land (Z.shiftr instr 4) 15 in
  let op2 := Z.land instr 15 in
  do mem <- get memory;
  do mem_value <- subscript (py_getitem mem op1);
  do _ <- log (MsgLoad op1 mem_value);
  do _ <- modify (set_loaded op1 op2 opcode mem_value);
  do _ <- modify (record_ram op1 mem_value);
  do _ <- modify (set_state EXECUTE);
  ret true.

(** The opcode dispatch of the EXECUTE branch; unlike [Gui.alu_control],
    the SUB branch leaves [alu_cin] at [False]. *)
Definition alu_control (opcode mem_val op2 : Z) : Z * Z * Z * bool :=
  let alu_s := 0 in
  let alu_cin := false in
  let alu_a := mem_val in
  let alu_b := op2 in
  if opcode =? 0 then (op2, alu_b, 0, alu_cin)
  else if opcode =? 1 then (alu_a, alu_b, 1, alu_cin)
  else if opcode =? 2 then (alu_a, alu_b, 2, alu_cin)
  else if opcode =? 3 then (alu_a, alu_b, 3, alu_cin)
  else if opcode =? 4 then (alu_a, alu_b, 4, alu_cin)
  else if opcode =? 5 then (alu_a, alu_b, 5, alu_cin)
  else if opcode =? 6 then (alu_a, alu_b, 6, alu_cin)
  else (alu_a, alu_b, alu_s, alu_cin).

(** The EXECUTE branch of [clock_cycle]; [loaded_op1] is not read here. *)
Definition do_execute : M Processor bool :=
  do opcode <- getattr loaded_opcode;
  do mem_val <- getattr loaded_mem;
  do op2 <- getattr loaded_op2;
  do op_name <- subscript (py_getitem op_names opcode);
  let '(alu_a, alu_b, alu_s, alu_cin) := alu_control opcode mem_val op2 in
  let r := ALU_4b_compute alu_a alu_b alu_s alu_cin in
  do _ <- modify (set_alu r);
  do _ <- log (MsgExecute op_name alu_a alu_b alu_s (fst r));
  do _ <- modify (set_state STORE);
  ret true.

(** The STORE branch of [clock_cycle]. *)
Definition do_store : M Processor bool :=
  do mem <- get memory;
  do op1 <- getattr loaded_op1;
  do res <- get alu_result;
  do mem' <- subscript (py_setitem mem op1 res);
  do _ <- modify (set_memory mem');
  do _ <- log (MsgStore op1 res);
  do _ <- modify (record_ram op1 res);
  do _ <- modify (set_state FETCH);
  ret true.

(** [Processor.clock_cycle] *)
Definition clock_cycle : M Processor bool :=
  do _ <- modify tick;
  do _ <- modify record_waveform;
  do st <- get state;
  match st with
  | INIT => do_init
  | FETCH => do_fetch
  | LOAD => do_load
  | EXECUTE => do_execute
  | STORE => do_store
  end.

(** The loop of [run_program], [max_cycles] iterations left. *)
Fixpoint run_loop (max_cycles : nat) : M Processor bool :=
  match max_cycles with
  | O => ret false
  | S n =>
      do running <- clock_cycle;
      if running then run_loop n else ret true
  end.

(** [Processor.run_program] *)
Definition run_program (max_cycles : nat) : M Processor bool :=
  do _ <- modify reset;
  do _ <- modify (set_state FETCH);
  run_loop max_cycles.

(** One call of [clock_cycle] by a driver: the processor it leaves
    behind, and what the call returned or raised. *)
Definition step (p : Processor) : Processor := fst (clock_cycle p).

Definition outcome (p : Processor) : result bool := snd (clock_cycle p).

(** [n] successive calls, whatever each one returns or raises. *)
Fixpoint steps (n : nat) (p : Processor) : Processor :=
  match n with
  | O => p
  | S n => steps n (step p)
  end.

(** The processors on which [n] successive calls are made: the one
    before the first call, the one before the second, and so on. *)
Fixpoint before_each (n : nat) (p : Processor) : list Processor :=
  match n with
  | O => []
  | S n => p :: before_each n (step p)
  end.

(** The statements of [clock_cycle] that come before the dispatch on the
    state. *)
Definition prologue (p : Processor) : Processor := record_waveform (tick p).

Definition observe (p : Processor) : Observation :=
  mkObservation (memory p) (pc p) (state p) (alu_result p) (alu_cout p).

Definition apply_call (c : call) (p : Processor) : Processor * call_result :=
  match c with
  | CallClock =>
      let '(p', r) := clock_cycle p in
      (p', match r with inl b => inl (Some b) | inr e => inr e end)
  | CallReset => (reset p, inl None)
  | CallLoad prog => (load_program prog p, inl None)
  end.

(** The processor after a sequence of calls. *)
Definition run_calls (cs : list call) (p : Processor) : Processor :=
  fold_left (fun p c => fst (apply_call c p)) cs p.

(** What the driver sees along a sequence of calls: after each call, the
    observable state and what the call returned or raised. *)
Fixpoint trace (cs : list call) (p : Processor)
  : list (Observation * call_result) :=
  match cs with
  | [] => []
  | c :: cs =>
      let '(p', r) := apply_call c p in
      (observe p', r) :: trace cs p'
  end.

End Enhanced.

(** ** Auxiliary definitions for the statements *)

(** The two processors agree on every attribute they share; [program] is
    present on both sides, and [loaded_op1] is present whenever
    [loaded_opcode] is (LOAD creates them together). *)
Definition sim (g : Gui.Processor) (e : Enhanced.Processor) : Prop :=
  Gui.memory g = Enhanced.memory e /\
  Gui.pc g = Enhanced.pc e /\
  Gui.state g = Enhanced.state e /\
  Gui.instruction g = Enhanced.instruction e /\
  Gui.alu_result g = Enhanced.alu_result e /\
  Gui.alu_cout g = Enhanced.alu_cout e /\
  Gui.cycle_count g = Enhanced.cycle_count e /\
  Gui.execution_log g = Enhanced.execution_log e /\
  Gui.program g = Some (Enhanced.program e) /\
  Gui.loaded_op1 g = Enhanced.loaded_op1 e /\
  Gui.loaded_op2 g = Enhanced.loaded_op2 e /\
  Gui.loaded_opcode g = Enhanced.loaded_opcode e /\
  Gui.loaded_mem g = Enhanced.loaded_mem e /\
  (Gui.loaded_op1 g = None -> Gui.loaded_opcode g = None) /\
  Gui.clk (Gui.waveform_history g)
    = Enhanced.clk (Enhanced.waveform_history e) /\
  Gui.w_pc (Gui.waveform_history g)
    = Enhanced.w_pc (Enhanced.waveform_history e) /\
  Gui.w_state (Gui.waveform_history g)
    = Enhanced.w_state (Enhanced.waveform_history e) /\
  Gui.alu_out (Gui.waveform_history g)
    = Enhanced.alu_out (Enhanced.waveform_history e) /\
  Gui.ram_addr (Gui.waveform_history g)
    = Enhanced.ram_addr (Enhanced.waveform_history e) /\
  Gui.ram_data (Gui.waveform_history g)
    = Enhanced.ram_data (Enhanced.waveform_history e).

(** What holds of the memory and the program counter of every processor a
    driver can build: sixteen cells, a counter that never goes below 0. *)
Definition gui_inv (p : Gui.Processor) : Prop :=
  length (Gui.memory p) = 16%nat /\ 0 <= Gui.pc p.

(** The ALU inputs that EXECUTE routes for an instruction whose addressed
    cell holds [mem_val]: operand A is the immediate for STO and the
    memory value otherwise, operand B is the immediate. *)
Definition operand_a (instr mem_val : Z) : Z :=
  if opcode_of instr =? 0 then imm_of instr else mem_val.

(** Bit [i] of [a] as the adder reads it. *)
Definition bit (a i : Z) : bool := truthy (Z.land (Z.shiftr a i) 1).

(** Decision procedure behind the exhaustive checks over the 4-bit
    domain. *)
Definition Adder_4b_check (a b : Z) (cin : bool) : bool :=
  let '(s, cout) := Adder_4b_compute a b cin in
  (s =? (a + b + Z.b2z cin) `mod` 16) &&
  Bool.eqb cout (16 <=? a + b + Z.b2z cin).

Definition ALU_sub_check (a b : Z) (cin : bool) : bool :=
  fst (ALU_4b_compute a b 2 cin) =? (a - b) `mod` 16.

Definition forall_word4 (f : Z -> Z -> bool -> bool) : bool :=
  forallb (fun a =>
    forallb (fun b => forallb (f a b) [false; true]) (range 16)) (range 16).

(** Two memories differ at exactly one address. *)
Definition changed_at_exactly_one (m m' : list Z) : Prop :=
  exists k : nat,
    m !! k <> m' !! k /\ forall j : nat, m !! j <> m' !! j -> j = k.

(** [reset] puts back what [__init__] builds, the memory included, and
    forgets the decode latches, but keeps the program. *)
Definition reset_restores_defaults (p : Gui.Processor) : Prop :=
  let q := Gui.reset p in
  Gui.pc q = 0 /\ Gui.state q = INIT /\ Gui.instruction q = 0 /\
  Gui.loaded_opcode q = None /\ Gui.loaded_op1 q = None /\
  Gui.loaded_op2 q = None /\ Gui.loaded_mem q = None /\
  Gui.alu_result q = 0 /\ Gui.alu_cout q = false /\ Gui.cycle_count q = 0 /\
  Gui.memory q = replicate 16 0 /\
  Gui.waveform_history q = Gui.empty_waveform /\
  Gui.program q = Gui.program p.

(** ** Concrete processors used in the examples *)

(** A new processor loaded with the one-instruction program [STO 0x4 0x5]
    (the word [0b00001000101]), before any cycle. *)
Definition loaded_sto_4_5 : Gui.Processor := Gui.load_program [69] Gui.init.

(** The same processor after the INIT cycle: at FETCH, nothing fetched. *)
Definition ready_sto_4_5 : Gui.Processor := Gui.steps 1 loaded_sto_4_5.

(** The same processor after INIT and the four cycles of its instruction:
    back at FETCH with the program exhausted and [memory[4] = 5]. *)
Definition after_sto_4_5 : Gui.Processor := Gui.steps 5 loaded_sto_4_5.

(** A new processor loaded with [STO 0x0 0x0] (the word [0]), after the
    INIT cycle: at FETCH, every memory cell still 0. *)
Definition ready_sto_0_0 : Gui.Processor :=
  Gui.steps 1 (Gui.load_program [0] Gui.init).

(** A new processor loaded with the single word [0b11100000000], whose
    opcode field is 7. *)
Definition loaded_opcode_7 : Gui.Processor :=
  Gui.load_program [1792] Gui.init.

(** The sample program of [load_default_program] and the memory cells
    that [check_results] expects after it has run. *)
Definition default_program : list Z := [69; 326; 31; 535; 1776].

Definition check_results (mem : list Z) : bool :=
  forallb (fun '(addr, expected_val) =>
             match py_getitem mem addr with
             | Some actual => actual =? expected_val
             | None => false
             end)
          [(1, 8); (4, 11); (15, 15)].

(** ** Reference definitions for the further properties *)

(** What each select code of the ALU computes, in arithmetic on the
    operands reduced to four bits: the result and the carry-out. *)
Definition ALU_reference (a b s : Z) (cin : bool) : Z * bool :=
  let a := a `mod` 16 in
  let b := b `mod` 16 in
  let s := s `mod` 8 in
  if s =? 0 then (a, false)
  else if s =? 1 then
    ((a + b + Z.b2z cin) `mod` 16, 16 <=? a + b + Z.b2z cin)
  else if s =? 2 then ((a - b) `mod` 16, b <=? a)
  else if s =? 3 then (Z.land a b, false)
  else if s =? 4 then (Z.lor a b, false)
  else if s =? 5 then (Z.lxor a b, false)
  else if s =? 6 then (15 - a, false)
  else (0, false).

(** Exhaustive check of a property of the ALU over the four-bit operands,
    the eight select codes and the two carry-ins. *)
Definition forall_alu_input (f : Z -> Z -> Z -> bool -> bool) : bool :=
  forallb (fun s => forall_word4 (fun a b cin => f a b s cin)) (range 8).

Definition ALU_reference_check (a b s : Z) (cin : bool) : bool :=
  let '(r, c) := ALU_4b_compute a b s cin in
  let '(r', c') := ALU_reference a b s cin in
  (r =? r') && Bool.eqb c c'.

(** The state that follows each state in the cycle of the FSM. *)
Definition next_state (s : FSMState) : FSMState :=
  match s with
  | INIT => FETCH
  | FETCH => LOAD
  | LOAD => EXECUTE
  | EXECUTE => STORE
  | STORE => FETCH
  end.

(** A four-bit value. *)
Definition word4 (z : Z) : Prop := 0 <= z <= 15.

(** The memory is sixteen four-bit cells and the ALU result register
    holds a four-bit value. *)
Definition gui_word4_inv (p : Gui.Processor) : Prop :=
  length (Gui.memory p) = 16%nat /\
  Forall word4 (Gui.memory p) /\
  word4 (Gui.alu_result p).

(** The four per-cycle histories hold one sample per counted cycle, the
    clock samples alternate starting from 1, and the two memory-access
    histories have the same length. *)
Definition gui_recorder_inv (p : Gui.Processor) : Prop :=
  let w := Gui.waveform_history p in
  Gui.cycle_count p = Z.of_nat (length (Gui.clk w)) /\
  length (Gui.w_pc w) = length (Gui.clk w) /\
  length (Gui.w_state w) = length (Gui.clk w) /\
  length (Gui.alu_out w) = length (Gui.clk w) /\
  length (Gui.ram_addr w) = length (Gui.ram_data w) /\
  (forall (k : nat) (v : Z),
     Gui.clk w !! k = Some v -> v = (Z.of_nat k + 1) `mod` 2).



(** The memory after one instruction: the addressed cell receives what
    the ALU computes from it and from the immediate. *)
Definition exec_instr (mem : list Z) (instr : Z) : list Z :=
  let addr := Z.to_nat (addr_of instr) in
  match mem !! addr with
  | Some old =>
      <[addr := (ALU_4b_compute (operand_a instr old) (imm_of instr)
                                (opcode_of instr) false).1]> mem
  | None => mem
  end.

(** An instruction word whose opcode is one of the seven with a
    mnemonic. *)
Definition defined_opcode (instr : Z) : Prop := opcode_of instr <> 7.

(** Two processors of [simulator_gui.py] that agree on every attribute
    except the four decode latches, and on those too when the state is
    one that reads them. *)
Definition same_but_latches (p q : Gui.Processor) : Prop :=
  Gui.memory p = Gui.memory q /\
  Gui.pc p = Gui.pc q /\
  Gui.state p = Gui.state q /\
  Gui.instruction p = Gui.instruction q /\
  Gui.alu_result p = Gui.alu_result q /\
  Gui.alu_cout p = Gui.alu_cout q /\
  Gui.cycle_count p = Gui.cycle_count q /\
  Gui.execution_log p = Gui.execution_log q /\
  Gui.waveform_history p = Gui.waveform_history q /\
  Gui.program p = Gui.program q /\
  match Gui.state p with
  | EXECUTE | STORE =>
      Gui.loaded_opcode p = Gui.loaded_opcode q /\
      Gui.loaded_op1 p = Gui.loaded_op1 q /\
      Gui.loaded_op2 p = Gui.loaded_op2 q /\
      Gui.loaded_mem p = Gui.loaded_mem q
  | _ => True
  end.

(** ** The assembler and the driver methods of [ProcessorSimulatorGUI] *)

(** The Python string operations that [compile_assembly] applies to the
    text of the editor, taken as given: [strip_comment line] is
    [line.split('//')[0].strip()], [split_parts line] is
    [line.replace(',', ' ').split()], [upper s] is [s.upper()], and
    [int_literal s] is [int(s, 0)], [None] when it raises [ValueError]. *)
Record PyText : Type := mkPyText {
  strip_comment : string -> string;
  split_parts : string -> list string;
  upper : string -> string;
  int_literal : string -> option Z
}.

(** The dict [opcodes] of [compile_assembly]. *)
Definition opcodes : list (string * Z) :=
  [("STO", 0); ("ADD", 1); ("SUB", 2); ("AND", 3); ("OR", 4); ("XOR", 5);
   ("NOT", 6)]%string.

(** [d[k]] on a dict written as its list of items; [None] when [k] is not
    a key. *)
Fixpoint dict_get (d : list (string * Z)) (k : string) : option Z :=
  match d with
  | [] => None
  | (k', v) :: d => if String.eqb k' k then Some v else dict_get d k
  end.

(** The messages appended to [errors], by the values interpolated. *)
Inductive AsmError : Set :=
| InvalidSyntax (line_num : Z)
| UnknownInstruction (line_num : Z) (mnemonic : string)
| InvalidOperands (line_num : Z).

(** [(opcode << 8) | (op1 << 4) | op2] *)
Definition encode_instruction (opcode op1 op2 : Z) : Z :=
  Z.lor (Z.lor (Z.shiftl opcode 8) (Z.shiftl op1 4)) op2.

(** The operands of a line: [int(parts[1], 0) & 0xF], and
    [int(parts[2], 0) & 0xF] when there is a third part, 0 otherwise;
    [None] when one of the conversions raises. *)
Definition parse_operands (py : PyText) (p1 : string) (rest : list string)
  : option (Z * Z) :=
  match int_literal py p1 with
  | None => None
  | Some n1 =>
      let op1 := Z.land n1 15 in
      match rest with
      | p2 :: _ =>
          match int_literal py p2 with
          | None => None
          | Some n2 => Some (op1, Z.land n2 15)
          end
      | [] => Some (op1, 0)
      end
  end.

(** The body of the loop of [compile_assembly] over the numbered lines, on
    the pair [(program, errors)]. *)
Definition assemble_line (py : PyText) (acc : list Z * list AsmError)
           (numbered : Z * string) : list Z * list AsmError :=
  let '(program, errors) := acc in
  let '(line_num, line) := numbered in
  let line := strip_comment py line in
  if String.eqb line EmptyString then acc
  else
    match split_parts py line with
    | [] | [_] => (program, errors ++ [InvalidSyntax line_num])
    | p0 :: p1 :: rest =>
        let mnemonic := upper py p0 in
        match dict_get opcodes mnemonic with
        | None => (program, errors ++ [UnknownInstruction line_num mnemonic])
        | Some opcode =>
            match parse_operands py p1 rest with
            | Some (op1, op2) =>
                (program ++ [encode_instruction opcode op1 op2], errors)
            | None => (program, errors ++ [InvalidOperands line_num])
            end
        end
    end.

(** [enumerate(lines, start)] *)
Fixpoint enumerate {A} (start : Z) (lines : list A) : list (Z * A) :=
  match lines with
  | [] => []
  | x :: lines => (start, x) :: enumerate (start + 1) lines
  end.

(** The loop of [compile_assembly] on the lines of the editor text: the
    machine code and the errors. *)
Definition assemble (py : PyText) (lines : list string)
  : list Z * list AsmError :=
  fold_left (assemble_line py) (enumerate 1 lines) ([], []).

(** What [load_default_program], [reset_processor] and
    [compile_assembly] do to [self.processor]; the widgets they redraw
    and the lines they log are left out. *)
Definition gui_load_default_program (p : Gui.Processor) : Gui.Processor :=
  Gui.load_program default_program p.

Definition gui_reset_processor (p : Gui.Processor) : Gui.Processor :=
  gui_load_default_program (Gui.reset p).

Definition gui_compile_assembly (py : PyText) (lines : list string)
           (p : Gui.Processor) : Gui.Processor :=
  let '(program, errors) := assemble py lines in
  match errors with
  | _ :: _ => p
  | [] => gui_reset_processor (Gui.load_program program p)
  end.

(** A stand-in for the Python string operations, enough to assemble the
    one line [STO 4 5] already split at blanks. *)
Definition py_words : PyText :=
  {| strip_comment := fun line => line;
     split_parts := fun _ => ["STO"; "4"; "5"]%string;
     upper := fun s => s;
     int_literal := fun s => if String.eqb s "4" then Some 4 else Some 5 |}.

Definition encode_check (a b s : Z) (cin : bool) : bool :=
  let w := encode_instruction s a b in
  (opcode_of w =? s) && (addr_of w =? a) && (imm_of w =? b) &&
  (0 <=? w) && (w <? 2048) && (w =? 256 * s + 16 * a + b).

(** What each of the seven instructions stores in the addressed cell,
    from the value [old] the cell holds and the immediate, in arithmetic
    on four-bit values. *)
Definition isa_result (opcode old imm : Z) : Z :=
  if opcode =? 0 then imm
  else if opcode =? 1 then (old + imm) `mod` 16
  else if opcode =? 2 then (old - imm) `mod` 16
  else if opcode =? 3 then Z.land old imm
  else if opcode =? 4 then Z.lor old imm
  else if opcode =? 5 then Z.lxor old imm
  else 15 - old.

(** * Properties *)

(** ** Python helpers *)

Lemma range_spec (n : nat) (z : Z) : 0 <= z < Z.of_nat n -> In z (range n).
Proof.
  intros Hz. unfold range. apply in_map_iff.
  exists (Z.to_nat z). split; [lia|]. apply in_seq. lia.
Qed.

Lemma py_index_nonneg (len : nat) (i : Z) :
  0 <= i < Z.of_nat len -> py_index len i = Some (Z.to_nat i).
Proof.
  intros Hi. unfold py_index.
  destruct (Z.leb_spec 0 i); [|lia].
  destruct (Z.ltb_spec i (Z.of_nat len)); [reflexivity|lia].
Qed.

Lemma py_getitem_nonneg {A} (l : list A) (i : Z) :
  0 <= i < Z.of_nat (length l) -> py_getitem l i = l !! Z.to_nat i.
Proof. intros Hi. unfold py_getitem. now rewrite py_index_nonneg. Qed.

Lemma py_setitem_nonneg {A} (l : list A) (i : Z) (v : A) :
  0 <= i < Z.of_nat (length l) ->
  py_setitem l i v = Some (<[Z.to_nat i:=v]> l).
Proof. intros Hi. unfold py_setitem. now rewrite py_index_nonneg. Qed.

Lemma py_getitem_is_Some {A} (l : list A) (i : Z) :
  0 <= i < Z.of_nat (length l) -> is_Some (py_getitem l i).
Proof.
  intros Hi. rewrite py_getitem_nonneg by assumption.
  apply lookup_lt_is_Some. lia.
Qed.

(** The two-sided mask [& 0xF] and [& 0x7] give a value in range. *)
Lemma land_15_range (z : Z) : 0 <= Z.land z 15 < 16.
Proof.
  change 15 with (Z.ones 4). rewrite Z.land_ones by lia.
  apply Z.mod_pos_bound. lia.
Qed.

Lemma land_7_range (z : Z) : 0 <= Z.land z 7 < 8.
Proof.
  change 7 with (Z.ones 3). rewrite Z.land_ones by lia.
  apply Z.mod_pos_bound. lia.
Qed.

Lemma land_15_id (z : Z) : 0 <= z <= 15 -> Z.land z 15 = z.
Proof.
  intros Hz. change 15 with (Z.ones 4). rewrite Z.land_ones by lia.
  apply Z.mod_small. lia.
Qed.

(** ** Gate-level primitives *)

(** [XOR_1b] built from AND, OR and NOT is exclusive or. *)
Lemma XOR_1b_is_xorb (a b : bool) : XOR_1b_compute a b = xorb a b.
Proof. now destruct a, b. Qed.

(** [FA_1b] follows the truth table of a one-bit adder. *)
Lemma FA_1b_arith (a b cin : bool) :
  let '(s, cout) := FA_1b_compute a b cin in
  Z.b2z s + 2 * Z.b2z cout = Z.b2z a + Z.b2z b + Z.b2z cin.
Proof. now destruct a, b, cin. Qed.

Lemma forall_word4_spec (f : Z -> Z -> bool -> bool) :
  forall_word4 f = true ->
  forall a b cin, 0 <= a <= 15 -> 0 <= b <= 15 -> f a b cin = true.
Proof.
  unfold forall_word4. intros H a b cin Ha Hb.
  rewrite forallb_forall in H.
  specialize (H a (range_spec 16 a ltac:(lia))).
  rewrite forallb_forall in H.
  specialize (H b (range_spec 16 b ltac:(lia))).
  rewrite forallb_forall in H.
  apply H. destruct cin; simpl; auto.
Qed.

Lemma Adder_4b_check_all : forall_word4 Adder_4b_check = true.
Proof. vm_compute. reflexivity. Qed.

Lemma ALU_sub_check_all : forall_word4 ALU_sub_check = true.
Proof. vm_compute. reflexivity. Qed.

(** C4. For all [a], [b] in [0,15] and any carry-in, [Adder_4b.compute]
    returns the sum [(a + b + cin) mod 16] and the carry-out
    [(a + b + cin) >= 16]; it is the chain of four [FA_1b] stages on bits
    0 to 3, each stage taking the carry of the one before. *)
Theorem Adder_4b_ripple_correct (a b : Z) (cin : bool) :
  0 <= a <= 15 -> 0 <= b <= 15 ->
  Adder_4b_compute a b cin
    = ((a + b + Z.b2z cin) `mod` 16, 16 <=? a + b + Z.b2z cin)
  /\ Adder_4b_compute a b cin
    = (let '(s0, c0) := FA_1b_compute (bit a 0) (bit b 0) cin in
       let '(s1, c1) := FA_1b_compute (bit a 1) (bit b 1) c0 in
       let '(s2, c2) := FA_1b_compute (bit a 2) (bit b 2) c1 in
       let '(s3, c3) := FA_1b_compute (bit a 3) (bit b 3) c2 in
       (Z.land
          (Z.lor (Z.lor (Z.lor (Z.lor 0
             (Z.shiftl (Z.b2z s0) 0)) (Z.shiftl (Z.b2z s1) 1))
             (Z.shiftl (Z.b2z s2) 2)) (Z.shiftl (Z.b2z s3) 3)) 15,
        c3)).
Proof.
  intros Ha Hb. split; [|reflexivity].
  pose proof (forall_word4_spec _ Adder_4b_check_all a b cin Ha Hb) as H.
  unfold Adder_4b_check in H.
  destruct (Adder_4b_compute a b cin) as [s cout].
  apply andb_true_iff in H as [Hs Hc].
  apply Z.eqb_eq in Hs. apply Bool.eqb_prop in Hc. now subst.
Qed.

(** [9 + 12 + 1 = 22]: sum 6, carry out. *)
Lemma Adder_4b_ripple_correct_witness :
  0 <= 9 <= 15 /\ 0 <= 12 <= 15 /\
  Adder_4b_compute 9 12 true = (6, true).
Proof.
  split; [lia|]. split; [lia|].
  apply (Adder_4b_ripple_correct 9 12 true); lia.
Defined.

(** C5. For all [a], [b] in [0,15] and any carry-in passed by the caller,
    select [010] returns [(a - b) mod 16]: the adder applied to [a] and the
    one's complement of [b] with the carry-in forced to [True]. *)
Theorem ALU_sub_correct (a b : Z) (cin : bool) :
  0 <= a <= 15 -> 0 <= b <= 15 ->
  fst (ALU_4b_compute a b 2 cin) = (a - b) `mod` 16
  /\ ALU_4b_compute a b 2 cin
     = Adder_4b_compute a (Z.land (Z.lnot b) 15) true.
Proof.
  intros Ha Hb. split.
  - pose proof (forall_word4_spec _ ALU_sub_check_all a b cin Ha Hb) as H.
    now apply Z.eqb_eq in H.
  - unfold ALU_4b_compute. rewrite !land_15_id by lia. reflexivity.
Qed.

(** [0 - 1] wraps to 15. *)
Lemma ALU_sub_correct_witness :
  0 <= 0 <= 15 /\ 0 <= 1 <= 15 /\
  fst (ALU_4b_compute 0 1 2 false) = 15.
Proof.
  split; [lia|]. split; [lia|].
  apply (ALU_sub_correct 0 1 false); lia.
Defined.

(** [XOR_1b] applied to each bit position is the bitwise exclusive or. *)
Lemma ALU_xor_is_lxor (a b : Z) :
  0 <= a <= 15 -> 0 <= b <= 15 ->
  (ALU_4b_compute a b 5 false).1 = Z.lxor a b.
Proof.
  intros Ha Hb.
  pose proof (forall_word4_spec
                (fun a b _ => (ALU_4b_compute a b 5 false).1 =? Z.lxor a b)
                ltac:(vm_compute; reflexivity) a b false Ha Hb) as H.
  now apply Z.eqb_eq in H.
Qed.

(** ** The scenarios of the specification *)

(** The sample program leaves [memory[4] = 0xB], [memory[1] = 0x8] and
    [memory[15] = 0xF], in 21 cycles. *)
Example sample_program_run :
  let '(p, r) :=
    Gui.run_program 100 (Gui.load_program default_program Gui.init) in
  r = inl true /\ Gui.cycle_count p = 21 /\
  Gui.memory p = [0; 8; 0; 0; 11; 0; 0; 0; 0; 0; 0; 0; 0; 0; 0; 15].
Proof. vm_compute. repeat split. Qed.

(** [STO 0xA 0xF] then [ADD 0xA 0x1]: the sum wraps to 0 with carry. *)
Example overflow_run :
  let '(p, r) := Gui.run_program 100 (Gui.load_program [175; 417] Gui.init) in
  r = inl true /\ Gui.memory p !! 10%nat = Some 0 /\ Gui.alu_cout p = true.
Proof. vm_compute. repeat split. Qed.

(** [STO 0xB 0x0] then [SUB 0xB 0x1]: the difference wraps to [0xF]. *)
Example underflow_run :
  let '(p, r) := Gui.run_program 100 (Gui.load_program [176; 689] Gui.init) in
  r = inl true /\ Gui.memory p !! 11%nat = Some 15.
Proof. vm_compute. repeat split. Qed.

(** ** One clock cycle of [simulator_gui.py], state by state *)

Ltac unfold_method :=
  cbv beta iota zeta delta
    [bind ret raise get getattr modify subscript
     Gui.do_init Gui.do_fetch Gui.do_load Gui.do_execute Gui.do_store Gui.log
     Enhanced.do_init Enhanced.do_fetch Enhanced.do_load Enhanced.do_execute
     Enhanced.do_store Enhanced.log].

(** The prologue leaves alone every attribute the branches read. *)
Ltac gui_frame p :=
  cbv beta iota;
  change (Gui.memory (Gui.prologue p)) with (Gui.memory p);
  change (Gui.pc (Gui.prologue p)) with (Gui.pc p);
  change (Gui.instruction (Gui.prologue p)) with (Gui.instruction p);
  change (Gui.alu_result (Gui.prologue p)) with (Gui.alu_result p);
  change (Gui.program (Gui.prologue p)) with (Gui.program p);
  change (Gui.loaded_opcode (Gui.prologue p)) with (Gui.loaded_opcode p);
  change (Gui.loaded_op1 (Gui.prologue p)) with (Gui.loaded_op1 p);
  change (Gui.loaded_op2 (Gui.prologue p)) with (Gui.loaded_op2 p);
  change (Gui.loaded_mem (Gui.prologue p)) with (Gui.loaded_mem p).

Ltac gui_read p H := gui_frame p; rewrite H; cbv beta iota.

(** Case analysis on every attribute read, subscript and test that a
    branch goes through. *)
Ltac case_branches :=
  repeat (cbv beta iota;
          match goal with
          | |- context [py_index ?n ?i] => destruct (py_index n i)
          | |- context [match ?x with Some _ => _ | None => _ end] =>
              destruct x
          | |- context [if ?x then _ else _] => destruct x
          | |- context [Gui.alu_control ?o ?m ?i] =>
              destruct (Gui.alu_control o m i) as [[[? ?] ?] ?]
          | |- context [Enhanced.alu_control ?o ?m ?i] =>
              destruct (Enhanced.alu_control o m i) as [[[? ?] ?] ?]
          end);
  cbv beta iota.

(** [clock_cycle] runs the branch of the state it was called in, on the
    processor left by the prologue. *)
Lemma gui_clock_cycle_dispatch (p : Gui.Processor) :
  Gui.clock_cycle p =
    match Gui.state p with
    | INIT => Gui.do_init
    | FETCH => Gui.do_fetch
    | LOAD => Gui.do_load
    | EXECUTE => Gui.do_execute
    | STORE => Gui.do_store
    end (Gui.prologue p).
Proof. reflexivity. Qed.


Lemma gui_fetch_no_program (p : Gui.Processor) :
  Gui.state p = FETCH -> Gui.program p = None ->
  Gui.clock_cycle p = (Gui.prologue p, inr AttributeError).
Proof.
  intros Hst Hprog. rewrite gui_clock_cycle_dispatch, Hst.
  unfold_method. gui_read p Hprog. reflexivity.
Qed.

Lemma gui_fetch_halt (p : Gui.Processor) (prog : list Z) :
  Gui.state p = FETCH -> Gui.program p = Some prog ->
  Z.of_nat (length prog) <= Gui.pc p ->
  Gui.clock_cycle p =
    (Gui.log_append MsgComplete (Gui.prologue p), inl false).
Proof.
  intros Hst Hprog Hpc. rewrite gui_clock_cycle_dispatch, Hst.
  unfold_method. gui_read p Hprog.
  destruct (Z.leb_spec (Z.of_nat (length prog)) (Gui.pc p)); [reflexivity|lia].
Qed.

Lemma gui_fetch_next (p : Gui.Processor) (prog : list Z) (instr : Z) :
  Gui.state p = FETCH -> Gui.program p = Some prog ->
  Gui.pc p < Z.of_nat (length prog) ->
  py_getitem prog (Gui.pc p) = Some instr ->
  Gui.clock_cycle p =
    (Gui.set_state LOAD (Gui.set_pc (Gui.pc p + 1)
       (Gui.log_append (MsgFetch (Gui.pc p) instr)
          (Gui.set_instruction instr (Gui.prologue p)))),
     inl true).
Proof.
  intros Hst Hprog Hpc Hget. rewrite gui_clock_cycle_dispatch, Hst.
  unfold_method. gui_read p Hprog.
  destruct (Z.leb_spec (Z.of_nat (length prog)) (Gui.pc p)); [lia|].
  gui_read p Hget. reflexivity.
Qed.

Lemma gui_load_step (p : Gui.Processor) (mem_value : Z) :
  Gui.state p = LOAD ->
  py_getitem (Gui.memory p) (addr_of (Gui.instruction p)) = Some mem_value ->
  Gui.clock_cycle p =
    (let instr := Gui.instruction p in
     Gui.set_state EXECUTE
       (Gui.record_ram (addr_of instr) mem_value
          (Gui.set_loaded (addr_of instr) (imm_of instr) (opcode_of instr)
             mem_value
             (Gui.log_append (MsgLoad (addr_of instr) mem_value)
                (Gui.prologue p)))),
     inl true).
Proof.
  intros Hst Hget. rewrite gui_clock_cycle_dispatch, Hst.
  unfold_method. gui_frame p.
  fold (addr_of (Gui.instruction p)) (imm_of (Gui.instruction p))
       (opcode_of (Gui.instruction p)).
  gui_read p Hget. reflexivity.
Qed.

Lemma gui_execute_step (p : Gui.Processor)
      (opcode op1 op2 mem_val : Z) (op_name : string) :
  Gui.state p = EXECUTE ->
  Gui.loaded_opcode p = Some opcode -> Gui.loaded_op1 p = Some op1 ->
  Gui.loaded_op2 p = Some op2 -> Gui.loaded_mem p = Some mem_val ->
  py_getitem op_names opcode = Some op_name ->
  Gui.clock_cycle p =
    (let '(alu_a, alu_b, alu_s, alu_cin) :=
       Gui.alu_control opcode mem_val op2 in
     let r := ALU_4b_compute alu_a alu_b alu_s alu_cin in
     Gui.set_state STORE
       (Gui.log_append (MsgExecute op_name alu_a alu_b alu_s (fst r))
          (Gui.set_alu r (Gui.prologue p))),
     inl true).
Proof.
  intros Hst Hopc Hop1 Hop2 Hmem Hname. rewrite gui_clock_cycle_dispatch, Hst.
  unfold_method. gui_read p Hopc. gui_read p Hop1. gui_read p Hop2.
  gui_read p Hmem.
  gui_read p Hname.
  now destruct (Gui.alu_control opcode mem_val op2) as [[[? ?] ?] ?].
Qed.

(** EXECUTE on an opcode outside the table of mnemonics. *)
Lemma gui_execute_no_mnemonic (p : Gui.Processor)
      (opcode op1 op2 mem_val : Z) :
  Gui.state p = EXECUTE ->
  Gui.loaded_opcode p = Some opcode -> Gui.loaded_op1 p = Some op1 ->
  Gui.loaded_op2 p = Some op2 -> Gui.loaded_mem p = Some mem_val ->
  py_getitem op_names opcode = None ->
  Gui.clock_cycle p = (Gui.prologue p, inr IndexError).
Proof.
  intros Hst Hopc Hop1 Hop2 Hmem Hname. rewrite gui_clock_cycle_dispatch, Hst.
  unfold_method. gui_read p Hopc. gui_read p Hop1. gui_read p Hop2.
  gui_read p Hmem.
  now rewrite Hname.
Qed.

Lemma gui_store_step (p : Gui.Processor) (op1 : Z) (mem' : list Z) :
  Gui.state p = STORE ->
  Gui.loaded_op1 p = Some op1 ->
  py_setitem (Gui.memory p) op1 (Gui.alu_result p) = Some mem' ->
  Gui.clock_cycle p =
    (Gui.set_state FETCH
       (Gui.record_ram op1 (Gui.alu_result p)
          (Gui.log_append (MsgStore op1 (Gui.alu_result p))
             (Gui.set_memory mem' (Gui.prologue p)))),
     inl true).
Proof.
  intros Hst Hop1 Hset. rewrite gui_clock_cycle_dispatch, Hst.
  unfold_method. gui_read p Hop1. gui_read p Hset. reflexivity.
Qed.

(** ** Halting *)

Lemma gui_steps_S (n : nat) (p : Gui.Processor) :
  Gui.steps (S n) p = Gui.step (Gui.steps n p).
Proof.
  revert p. induction n as [|n IH]; intros p; [reflexivity|]. apply IH.
Qed.

(** A call at FETCH with the program exhausted keeps the processor at
    FETCH with the program exhausted. *)
Lemma gui_halted_preserved (p : Gui.Processor) (prog : list Z) (n : nat) :
  Gui.state p = FETCH -> Gui.program p = Some prog ->
  Z.of_nat (length prog) <= Gui.pc p ->
  Gui.state (Gui.steps n p) = FETCH /\
  Gui.program (Gui.steps n p) = Some prog /\
  Gui.pc (Gui.steps n p) = Gui.pc p /\
  Gui.memory (Gui.steps n p) = Gui.memory p.
Proof.
  intros Hst Hprog Hpc. induction n as [|n (IHst & IHprog & IHpc & IHmem)].
  - now repeat split.
  - rewrite gui_steps_S. unfold Gui.step.
    rewrite (gui_fetch_halt _ prog IHst IHprog) by lia.
    now repeat split.
Qed.

(** C6. Once the processor is at FETCH with the program exhausted, the
    next call of [clock_cycle] and every call after it returns [False]
    and leaves the memory, the program counter and the control state as
    they were. *)
Theorem halted_stays_halted (p : Gui.Processor) (prog : list Z) (n : nat) :
  Gui.state p = FETCH -> Gui.program p = Some prog ->
  Z.of_nat (length prog) <= Gui.pc p ->
  Gui.outcome (Gui.steps n p) = inl false /\
  Gui.memory (Gui.steps (S n) p) = Gui.memory p /\
  Gui.pc (Gui.steps (S n) p) = Gui.pc p /\
  Gui.state (Gui.steps (S n) p) = FETCH.
Proof.
  intros Hst Hprog Hpc.
  destruct (gui_halted_preserved p prog n Hst Hprog Hpc)
    as (Hst' & Hprog' & Hpc' & _).
  destruct (gui_halted_preserved p prog (S n) Hst Hprog Hpc)
    as (Hst'' & _ & Hpc'' & Hmem'').
  repeat split; try assumption.
  unfold Gui.outcome. rewrite (gui_fetch_halt _ prog Hst' Hprog') by lia.
  reflexivity.
Qed.

(** After [STO 0x4 0x5] has run, the one-word program is exhausted. *)
Lemma halted_stays_halted_witness :
  Gui.state after_sto_4_5 = FETCH /\
  Gui.program after_sto_4_5 = Some [69] /\
  Z.of_nat (length [69]) <= Gui.pc after_sto_4_5 /\
  Gui.outcome (Gui.steps 2 after_sto_4_5) = inl false /\
  Gui.memory (Gui.steps 3 after_sto_4_5) = Gui.memory after_sto_4_5 /\
  Gui.pc (Gui.steps 3 after_sto_4_5) = Gui.pc after_sto_4_5 /\
  Gui.state (Gui.steps 3 after_sto_4_5) = FETCH.
Proof.
  assert (Hst : Gui.state after_sto_4_5 = FETCH) by reflexivity.
  assert (Hprog : Gui.program after_sto_4_5 = Some [69]) by reflexivity.
  assert (Hpc : Z.of_nat (length [69]) <= Gui.pc after_sto_4_5)
    by (vm_compute; discriminate).
  split; [exact Hst|]. split; [exact Hprog|]. split; [exact Hpc|].
  exact (halted_stays_halted after_sto_4_5 [69] 2 Hst Hprog Hpc).
Defined.

(** ** Loading a program *)

(** C7. [load_program] installs the given program and sets the program
    counter to 0; the control state and the memory are left as they
    were. Both simulator files agree on this. *)
Theorem load_program_frame (prog : list Z) :
  (forall p : Gui.Processor,
     Gui.program (Gui.load_program prog p) = Some prog /\
     Gui.pc (Gui.load_program prog p) = 0 /\
     Gui.state (Gui.load_program prog p) = Gui.state p /\
     Gui.memory (Gui.load_program prog p) = Gui.memory p) /\
  (forall p : Enhanced.Processor,
     Enhanced.program (Enhanced.load_program prog p) = prog /\
     Enhanced.pc (Enhanced.load_program prog p) = 0 /\
     Enhanced.state (Enhanced.load_program prog p) = Enhanced.state p /\
     Enhanced.memory (Enhanced.load_program prog p) = Enhanced.memory p).
Proof. split; intros p; repeat split. Qed.

(** ** The waveform recorder *)

(** Whatever branch runs, the four per-cycle signals are the ones the
    prologue left: the branches only append to [ram_addr] and
    [ram_data]. *)
Lemma gui_step_signals (p : Gui.Processor) :
  let w := Gui.waveform_history (Gui.prologue p) in
  let w' := Gui.waveform_history (Gui.step p) in
  Gui.clk w' = Gui.clk w /\ Gui.w_pc w' = Gui.w_pc w /\
  Gui.w_state w' = Gui.w_state w /\ Gui.alu_out w' = Gui.alu_out w.
Proof.
  unfold Gui.step. rewrite gui_clock_cycle_dispatch.
  generalize (Gui.prologue p). intros q.
  destruct (Gui.state p); unfold_method; case_branches; now repeat split.
Qed.

(** One call appends one entry to each per-cycle signal: the clock phase
    of the new cycle and the program counter, state and ALU output the
    call started from. *)
Lemma gui_step_appends (p : Gui.Processor) :
  let w := Gui.waveform_history p in
  let w' := Gui.waveform_history (Gui.step p) in
  Gui.clk w' = Gui.clk w ++ [(Gui.cycle_count p + 1) `mod` 2] /\
  Gui.w_pc w' = Gui.w_pc w ++ [Gui.pc p] /\
  Gui.w_state w' = Gui.w_state w ++ [FSMState_value (Gui.state p)] /\
  Gui.alu_out w' = Gui.alu_out w ++ [Gui.alu_result p].
Proof.
  pose proof (gui_step_signals p) as H. cbv zeta in *.
  destruct H as (-> & -> & -> & ->). now repeat split.
Qed.

Lemma gui_step_cycle_count (p : Gui.Processor) :
  Gui.cycle_count (Gui.step p) = Gui.cycle_count p + 1.
Proof.
  unfold Gui.step. rewrite gui_clock_cycle_dispatch.
  change (Gui.cycle_count p + 1) with (Gui.cycle_count (Gui.prologue p)).
  generalize (Gui.prologue p). intros q.
  destruct (Gui.state p); unfold_method; case_branches; reflexivity.
Qed.

(** C8. [n] calls of [clock_cycle], whether they return [True], return
    [False] after the halt or raise, extend each of the [clk], [pc],
    [state] and [alu_out] histories by exactly [n] entries, one per call
    and in call order, after the entries that were already there;
    [load_program] keeps the histories and only [reset] empties them. *)
Theorem recorder_append_only (n : nat) (p : Gui.Processor) :
  let w := Gui.waveform_history p in
  let w' := Gui.waveform_history (Gui.steps n p) in
  let ps := Gui.before_each n p in
  (Gui.clk w'
     = Gui.clk w ++ map (fun q => (Gui.cycle_count q + 1) `mod` 2) ps /\
   Gui.w_pc w' = Gui.w_pc w ++ map Gui.pc ps /\
   Gui.w_state w'
     = Gui.w_state w ++ map (fun q => FSMState_value (Gui.state q)) ps /\
   Gui.alu_out w' = Gui.alu_out w ++ map Gui.alu_result ps) /\
  length ps = n /\
  (forall prog,
     Gui.waveform_history (Gui.load_program prog p) = Gui.waveform_history p) /\
  Gui.waveform_history (Gui.reset p) = Gui.empty_waveform.
Proof.
  cbv zeta. split; [|split; [|split; reflexivity]].
  - revert p. induction n as [|n IH]; intros p.
    + cbn. now rewrite !app_nil_r.
    + cbn [Gui.steps Gui.before_each map].
      destruct (IH (Gui.step p)) as (-> & -> & -> & ->).
      pose proof (gui_step_appends p) as H. cbv zeta in H.
      destruct H as (-> & -> & -> & ->).
      now rewrite <- !app_assoc.
  - revert p. induction n as [|n IH]; intros p; [reflexivity|].
    cbn. now rewrite IH.
Qed.

(** ** The two simulator files step alike *)

(** Select [010] never looks at the carry-in it is given. *)
Lemma ALU_sub_ignores_cin (a b : Z) (cin cin' : bool) :
  ALU_4b_compute a b 2 cin = ALU_4b_compute a b 2 cin'.
Proof. reflexivity. Qed.

(** The unused select code falls through to [(0, False)]. *)
Lemma ALU_undefined_select (a b : Z) (cin : bool) :
  ALU_4b_compute a b 7 cin = (0, false).
Proof. reflexivity. Qed.

(** The two opcode dispatches route the same operands and select code,
    and what the ALU computes from them is the same. *)
Lemma alu_control_agree (opcode mem_val op2 : Z) :
  let '(a, b, s, cin) := Gui.alu_control opcode mem_val op2 in
  let '(a', b', s', cin') := Enhanced.alu_control opcode mem_val op2 in
  a = a' /\ b = b' /\ s = s' /\
  ALU_4b_compute a b s cin = ALU_4b_compute a' b' s' cin'.
Proof.
  unfold Gui.alu_control, Enhanced.alu_control.
  repeat match goal with
         | |- context [if ?x then _ else _] => destruct x
         end; repeat split.
Qed.

Ltac unfold_state :=
  cbv beta iota zeta delta
    [fst snd
     Gui.prologue Gui.tick Gui.record_waveform Gui.record_ram Gui.log_append
     Gui.set_memory Gui.set_pc Gui.set_state Gui.set_instruction Gui.set_alu
     Gui.set_cycle_count Gui.set_execution_log Gui.set_waveform_history
     Gui.set_program Gui.set_loaded Gui.reset Gui.load_program
     Gui.memory Gui.pc Gui.state Gui.instruction Gui.alu_result Gui.alu_cout
     Gui.cycle_count Gui.execution_log Gui.waveform_history Gui.program
     Gui.loaded_op1 Gui.loaded_op2 Gui.loaded_opcode Gui.loaded_mem
     Gui.clk Gui.w_pc Gui.w_state Gui.alu_out Gui.ram_addr Gui.ram_data
     Gui.empty_waveform
     Enhanced.prologue Enhanced.tick Enhanced.record_waveform
     Enhanced.record_ram Enhanced.log_append
     Enhanced.set_memory Enhanced.set_pc Enhanced.set_state
     Enhanced.set_instruction Enhanced.set_alu Enhanced.set_cycle_count
     Enhanced.set_execution_log Enhanced.set_waveform_history
     Enhanced.set_program Enhanced.set_loaded Enhanced.reset
     Enhanced.load_program
     Enhanced.memory Enhanced.pc Enhanced.state Enhanced.instruction
     Enhanced.alu_result Enhanced.alu_cout Enhanced.cycle_count
     Enhanced.execution_log Enhanced.waveform_history Enhanced.program
     Enhanced.loaded_op1 Enhanced.loaded_op2 Enhanced.loaded_opcode
     Enhanced.loaded_mem
     Enhanced.clk Enhanced.w_pc Enhanced.w_state Enhanced.alu_out
     Enhanced.ram_addr Enhanced.ram_data Enhanced.w_instruction
     Enhanced.empty_waveform].

Lemma enh_clock_cycle_dispatch (p : Enhanced.Processor) :
  Enhanced.clock_cycle p =
    match Enhanced.state p with
    | INIT => Enhanced.do_init
    | FETCH => Enhanced.do_fetch
    | LOAD => Enhanced.do_load
    | EXECUTE => Enhanced.do_execute
    | STORE => Enhanced.do_store
    end (Enhanced.prologue p).
Proof. reflexivity. Qed.

(** One clock cycle keeps the two processors in agreement and gives the
    driver the same answer. *)
Lemma sim_clock_cycle (g : Gui.Processor) (e : Enhanced.Processor) :
  sim g e ->
  sim (Gui.clock_cycle g).1 (Enhanced.clock_cycle e).1 /\
  (Gui.clock_cycle g).2 = (Enhanced.clock_cycle e).2.
Proof.
  rewrite gui_clock_cycle_dispatch, enh_clock_cycle_dispatch.
  destruct g as [mem pc st ins res cout cyc elog [c1 c2 c3 c4 c5 c6] prog
                 l1 l2 lo lm].
  destruct e as [mem' pc' st' ins' res' cout' cyc' elog' prog'
                 [d1 d2 d3 d4 d5 d6 d7] l1' l2' lo' lm'].
  unfold sim. unfold_state.
  intros (<- & <- & <- & <- & <- & <- & <- & <- & -> & <- & <- & <- & <-
          & Hl & <- & <- & <- & <- & <- & <-).
  destruct st; unfold_method; unfold_state.
  - repeat split; assumption.
  - case_branches; unfold_state; repeat split; assumption.
  - case_branches; unfold_state; repeat split; try assumption; discriminate.
  - destruct lo as [opcode|]; [|now repeat split].
    destruct l1 as [op1|]; [|now specialize (Hl eq_refl)].
    destruct l2 as [op2|], lm as [mem_val|]; try now repeat split.
    cbv beta iota.
    destruct (py_getitem op_names opcode) as [op_name|]; [|now repeat split].
    cbv beta iota.
    pose proof (alu_control_agree opcode mem_val op2) as Hagree.
    destruct (Gui.alu_control opcode mem_val op2) as [[[a b] s] cin].
    destruct (Enhanced.alu_control opcode mem_val op2) as [[[a' b'] s'] cin'].
    destruct Hagree as (<- & <- & <- & <-).
    unfold_state. repeat split; try assumption; discriminate.
  - case_branches; unfold_state; repeat split; assumption.
Qed.

Lemma sim_reset (g : Gui.Processor) (e : Enhanced.Processor) :
  sim g e -> sim (Gui.reset g) (Enhanced.reset e).
Proof.
  unfold sim. unfold_state.
  intros (? & ? & ? & ? & ? & ? & ? & ? & ? & ? & ? & ? & ? & ? & ?).
  repeat split; assumption.
Qed.

Lemma sim_load_program (prog : list Z) (g : Gui.Processor)
      (e : Enhanced.Processor) :
  sim g e -> sim (Gui.load_program prog g) (Enhanced.load_program prog e).
Proof.
  unfold sim. unfold_state.
  intros (? & ? & ? & ? & ? & ? & ? & ? & ? & ? & ? & ? & ? & ? & ?
          & ? & ? & ? & ? & ?).
  repeat split; assumption.
Qed.

(** Two new processors agree as soon as both have been given the same
    program. *)
Lemma sim_loaded (prog : list Z) :
  sim (Gui.load_program prog Gui.init)
      (Enhanced.load_program prog Enhanced.init).
Proof. unfold sim. repeat split. Qed.

Lemma sim_apply_call (c : call) (g : Gui.Processor) (e : Enhanced.Processor) :
  sim g e ->
  sim (Gui.apply_call c g).1 (Enhanced.apply_call c e).1 /\
  (Gui.apply_call c g).2 = (Enhanced.apply_call c e).2.
Proof.
  intros Hsim.
  destruct c as [| |prog]; cbn [Gui.apply_call Enhanced.apply_call].
  - destruct (sim_clock_cycle g e Hsim) as [Hsim' Hres].
    destruct (Gui.clock_cycle g) as [g' r], (Enhanced.clock_cycle e) as [e' r'].
    cbn in *. subst r'. now split.
  - split; [now apply sim_reset|reflexivity].
  - split; [now apply sim_load_program|reflexivity].
Qed.

Lemma sim_observe (g : Gui.Processor) (e : Enhanced.Processor) :
  sim g e -> Gui.observe g = Enhanced.observe e.
Proof.
  unfold sim, Gui.observe, Enhanced.observe.
  intros (-> & -> & -> & _ & -> & -> & _). reflexivity.
Qed.

Lemma sim_trace (cs : list call) (g : Gui.Processor) (e : Enhanced.Processor) :
  sim g e -> Gui.trace cs g = Enhanced.trace cs e.
Proof.
  revert g e. induction cs as [|c cs IH]; intros g e Hsim; [reflexivity|].
  cbn [Gui.trace Enhanced.trace].
  destruct (sim_apply_call c g e Hsim) as [Hsim' Hres].
  destruct (Gui.apply_call c g) as [g' r], (Enhanced.apply_call c e) as [e' r'].
  cbn in Hsim', Hres. subst r'.
  now rewrite (sim_observe g' e' Hsim'), (IH g' e' Hsim').
Qed.

(** C9. Given the same program by [load_program], the processors of
    [simulator_gui.py] and of [simulator_gui_enhanced.py] show a driver
    the same memory, program counter, control state, ALU result and
    carry-out after every call, and every call returns or raises the
    same, along any sequence of [clock_cycle] calls (and of [reset] and
    further [load_program] calls). For SUB the first passes carry-in
    [True] and the second [False], and the ALU result is the same. *)
Theorem simulators_agree (prog : list Z) (cs : list call) :
  Gui.trace cs (Gui.load_program prog Gui.init)
    = Enhanced.trace cs (Enhanced.load_program prog Enhanced.init)
  /\ (forall mem_val op2,
        Gui.alu_control 2 mem_val op2 = (mem_val, op2, 2, true) /\
        Enhanced.alu_control 2 mem_val op2 = (mem_val, op2, 2, false) /\
        ALU_4b_compute mem_val op2 2 true = ALU_4b_compute mem_val op2 2 false).
Proof.
  split; [apply sim_trace, sim_loaded|].
  intros mem_val op2. repeat split.
Qed.

(** ** A processor that was never given a program *)

Lemma enh_fetch_halt (p : Enhanced.Processor) :
  Enhanced.state p = FETCH ->
  Z.of_nat (length (Enhanced.program p)) <= Enhanced.pc p ->
  Enhanced.clock_cycle p =
    (Enhanced.log_append MsgComplete (Enhanced.prologue p), inl false).
Proof.
  intros Hst Hpc. rewrite enh_clock_cycle_dispatch, Hst. unfold_method.
  change (Enhanced.program (Enhanced.prologue p)) with (Enhanced.program p).
  change (Enhanced.pc (Enhanced.prologue p)) with (Enhanced.pc p).
  destruct (Z.leb_spec (Z.of_nat (length (Enhanced.program p)))
                       (Enhanced.pc p)); [reflexivity|lia].
Qed.

Lemma gui_no_program_steps (n : nat) :
  Gui.state (Gui.steps (S n) Gui.init) = FETCH /\
  Gui.program (Gui.steps (S n) Gui.init) = None.
Proof.
  induction n as [|n [IHst IHprog]]; [now split|].
  rewrite gui_steps_S. unfold Gui.step.
  rewrite (gui_fetch_no_program _ IHst IHprog). now split.
Qed.

Lemma enh_steps_S (n : nat) (p : Enhanced.Processor) :
  Enhanced.steps (S n) p = Enhanced.step (Enhanced.steps n p).
Proof.
  revert p. induction n as [|n IH]; intros p; [reflexivity|]. apply IH.
Qed.

Lemma enh_no_program_steps (n : nat) :
  Enhanced.state (Enhanced.steps (S n) Enhanced.init) = FETCH /\
  Enhanced.program (Enhanced.steps (S n) Enhanced.init) = [] /\
  Enhanced.pc (Enhanced.steps (S n) Enhanced.init) = 0.
Proof.
  induction n as [|n (IHst & IHprog & IHpc)]; [now repeat split|].
  rewrite enh_steps_S. unfold Enhanced.step.
  rewrite (enh_fetch_halt _ IHst) by (rewrite IHprog, IHpc; reflexivity).
  now repeat split.
Qed.

(** C10. In [simulator_gui.py] a new processor has no [program]
    attribute; its first cycle leaves INIT for FETCH and every later
    [clock_cycle] call raises [AttributeError]. In
    [simulator_gui_enhanced.py] the program starts as the empty list and
    the same calls return [False]. *)
Theorem fetch_before_load_program (n : nat) :
  (Gui.program Gui.init = None /\
   Gui.outcome Gui.init = inl true /\
   Gui.state (Gui.steps (S n) Gui.init) = FETCH /\
   Gui.outcome (Gui.steps (S n) Gui.init) = inr AttributeError) /\
  (Enhanced.program Enhanced.init = [] /\
   Enhanced.outcome Enhanced.init = inl true /\
   Enhanced.state (Enhanced.steps (S n) Enhanced.init) = FETCH /\
   Enhanced.outcome (Enhanced.steps (S n) Enhanced.init) = inl false).
Proof.
  destruct (gui_no_program_steps n) as [Hst Hprog].
  destruct (enh_no_program_steps n) as (Hst' & Hprog' & Hpc').
  repeat split; try assumption.
  - unfold Gui.outcome. now rewrite (gui_fetch_no_program _ Hst Hprog).
  - unfold Enhanced.outcome.
    rewrite (enh_fetch_halt _ Hst') by (rewrite Hprog', Hpc'; reflexivity).
    reflexivity.
Qed.

(** ** Reset *)

(** C3 (amended). [reset] sets the program counter to 0, the control
    state to INIT, the latched instruction to 0, the ALU result to 0 and
    the carry-out to [False], the cycle counter to 0, and empties the
    execution log and every recorder history; the loaded program is kept,
    and so are the four decode latches, which [reset] does not assign.
    Both simulator files agree on this. *)
Theorem reset_clears_registers :
  (forall p : Gui.Processor,
     let q := Gui.reset p in
     Gui.pc q = 0 /\ Gui.state q = INIT /\ Gui.instruction q = 0 /\
     Gui.alu_result q = 0 /\ Gui.alu_cout q = false /\
     Gui.cycle_count q = 0 /\ Gui.execution_log q = [] /\
     Gui.waveform_history q = Gui.empty_waveform /\
     Gui.program q = Gui.program p /\
     Gui.loaded_opcode q = Gui.loaded_opcode p /\
     Gui.loaded_op1 q = Gui.loaded_op1 p /\
     Gui.loaded_op2 q = Gui.loaded_op2 p /\
     Gui.loaded_mem q = Gui.loaded_mem p) /\
  (forall p : Enhanced.Processor,
     let q := Enhanced.reset p in
     Enhanced.pc q = 0 /\ Enhanced.state q = INIT /\
     Enhanced.instruction q = 0 /\
     Enhanced.alu_result q = 0 /\ Enhanced.alu_cout q = false /\
     Enhanced.cycle_count q = 0 /\ Enhanced.execution_log q = [] /\
     Enhanced.waveform_history q = Enhanced.empty_waveform /\
     Enhanced.program q = Enhanced.program p /\
     Enhanced.loaded_opcode q = Enhanced.loaded_opcode p /\
     Enhanced.loaded_op1 q = Enhanced.loaded_op1 p /\
     Enhanced.loaded_op2 q = Enhanced.loaded_op2 p /\
     Enhanced.loaded_mem q = Enhanced.loaded_mem p).
Proof. split; intros p; repeat split. Qed.

(** [reset] does not assign [memory] in either file. *)
Lemma reset_keeps_memory :
  (forall p : Gui.Processor, Gui.memory (Gui.reset p) = Gui.memory p) /\
  (forall p : Enhanced.Processor,
     Enhanced.memory (Enhanced.reset p) = Enhanced.memory p).
Proof. split; reflexivity. Qed.

(** C3 as stated fails: after [STO 0x4 0x5] has run, [reset] leaves
    [memory[4] = 5] and the decode latches of that instruction. *)
Lemma reset_keeps_memory_and_latches :
  Gui.memory (Gui.reset after_sto_4_5) !! 4%nat = Some 5 /\
  Gui.loaded_op1 (Gui.reset after_sto_4_5) = Some 4 /\
  ~ reset_restores_defaults after_sto_4_5.
Proof.
  split; [reflexivity|]. split; [reflexivity|].
  unfold reset_restores_defaults. cbv zeta.
  intros (_ & _ & _ & _ & H & _). discriminate H.
Qed.

(** What the memory that survives [reset] does to a second run of the
    sample program: [check_results] passes after the first run and fails
    after [reset], [load_program] and a second run, because [NOT 0xF] now
    starts from [memory[15] = 15]. *)
Lemma check_results_after_reset :
  let first :=
    (Gui.run_program 100 (Gui.load_program default_program Gui.init)).1 in
  let second :=
    (Gui.run_program 100 (Gui.load_program default_program first)).1 in
  check_results (Gui.memory first) = true /\
  check_results (Gui.memory second) = false /\
  Gui.memory second !! 15%nat = Some 0.
Proof. vm_compute. repeat split. Qed.

(** ** Sixteen cells and a non-negative program counter *)

Lemma gui_inv_init : gui_inv Gui.init.
Proof. split; [reflexivity|]. cbn. lia. Qed.

Lemma gui_inv_clock_cycle (p : Gui.Processor) :
  gui_inv p -> gui_inv (Gui.step p).
Proof.
  unfold Gui.step. rewrite gui_clock_cycle_dispatch.
  destruct p as [mem pc st ins res cout cyc elog w prog l1 l2 lo lm].
  unfold gui_inv. unfold_state. intros [Hlen Hpc].
  destruct st; unfold_method; unfold py_setitem; unfold_state;
    case_branches; unfold_state; rewrite ?length_insert; split; auto; lia.
Qed.

Lemma gui_inv_apply_call (c : call) (p : Gui.Processor) :
  gui_inv p -> gui_inv (Gui.apply_call c p).1.
Proof.
  intros Hinv. destruct c as [| |prog]; cbn [Gui.apply_call].
  - pose proof (gui_inv_clock_cycle p Hinv) as H. unfold Gui.step in H.
    now destruct (Gui.clock_cycle p).
  - destruct Hinv as [Hlen _]. split; [exact Hlen|]. cbn. lia.
  - destruct Hinv as [Hlen _]. split; [exact Hlen|]. cbn. lia.
Qed.

(** Every processor a driver can build has sixteen memory cells and a
    program counter that is not negative. *)
Lemma gui_inv_run_calls (cs : list call) (p : Gui.Processor) :
  gui_inv p -> gui_inv (Gui.run_calls cs p).
Proof.
  revert p. induction cs as [|c cs IH]; intros p Hinv; [exact Hinv|].
  apply IH, gui_inv_apply_call, Hinv.
Qed.

(** With sixteen cells, the cell an instruction addresses exists. *)
Lemma gui_addressed_cell (p : Gui.Processor) (instr : Z) :
  length (Gui.memory p) = 16%nat ->
  is_Some (Gui.memory p !! Z.to_nat (addr_of instr)).
Proof.
  intros Hlen. apply lookup_lt_is_Some. rewrite Hlen.
  pose proof (land_15_range (Z.shiftr instr 4)). unfold addr_of. lia.
Qed.

(** ** One instruction in four cycles *)

Lemma addr_of_nonneg (instr : Z) : 0 <= addr_of instr.
Proof. unfold addr_of. apply land_15_range. Qed.

Lemma op_names_defined (opcode : Z) :
  0 <= opcode < 7 -> is_Some (py_getitem op_names opcode).
Proof. intros H. apply py_getitem_is_Some. cbn. lia. Qed.

(** The table of mnemonics has no entry for opcode 7. *)
Lemma op_names_undefined : py_getitem op_names 7 = None.
Proof. reflexivity. Qed.

(** For the seven defined opcodes the select code is the opcode, operand
    A is the immediate for STO and the memory value otherwise, operand B
    is the immediate, and only SUB asks for a carry-in. *)
Lemma gui_alu_control_defined (opcode mem_val op2 : Z) :
  0 <= opcode < 7 ->
  Gui.alu_control opcode mem_val op2
    = (if opcode =? 0 then op2 else mem_val, op2, opcode, opcode =? 2).
Proof.
  intros H.
  assert (opcode = 0 \/ opcode = 1 \/ opcode = 2 \/ opcode = 3 \/
          opcode = 4 \/ opcode = 5 \/ opcode = 6) as Hcases by lia.
  destruct Hcases as [-> | [-> | [-> | [-> | [-> | [-> | ->]]]]]];
    reflexivity.
Qed.

Lemma ALU_cin_only_for_add (a b s : Z) :
  s <> 1 -> ALU_4b_compute a b s (s =? 2) = ALU_4b_compute a b s false.
Proof.
  intros Hs. destruct (Z.eqb_spec s 2) as [->|]; [|reflexivity].
  apply ALU_sub_ignores_cin.
Qed.

(** C2 (amended). From FETCH with an instruction left to run whose opcode
    is one of the seven defined ones, four calls of [clock_cycle] all
    return [True], pass through LOAD, EXECUTE and STORE and come back to
    FETCH with the program counter one higher; the memory is untouched by
    the first three calls and the fourth writes the ALU result into the
    cell addressed by the instruction, for every opcode, and into no other
    cell. *)
Theorem instruction_cycle (p : Gui.Processor) (prog : list Z) (instr old : Z) :
  Gui.state p = FETCH ->
  Gui.program p = Some prog ->
  0 <= Gui.pc p ->
  prog !! Z.to_nat (Gui.pc p) = Some instr ->
  Gui.memory p !! Z.to_nat (addr_of instr) = Some old ->
  opcode_of instr <> 7 ->
  let result :=
    (ALU_4b_compute (operand_a instr old) (imm_of instr) (opcode_of instr)
                    false).1 in
  (Gui.outcome p = inl true /\
   Gui.outcome (Gui.steps 1 p) = inl true /\
   Gui.outcome (Gui.steps 2 p) = inl true /\
   Gui.outcome (Gui.steps 3 p) = inl true) /\
  (Gui.state (Gui.steps 1 p) = LOAD /\
   Gui.state (Gui.steps 2 p) = EXECUTE /\
   Gui.state (Gui.steps 3 p) = STORE /\
   Gui.state (Gui.steps 4 p) = FETCH) /\
  Gui.pc (Gui.steps 4 p) = Gui.pc p + 1 /\
  Gui.memory (Gui.steps 3 p) = Gui.memory p /\
  Gui.memory (Gui.steps 4 p)
    = <[Z.to_nat (addr_of instr) := result]> (Gui.memory p) /\
  Gui.memory (Gui.steps 4 p) !! Z.to_nat (addr_of instr) = Some result /\
  (forall k : nat,
     k <> Z.to_nat (addr_of instr) ->
     Gui.memory (Gui.steps 4 p) !! k = Gui.memory p !! k).
Proof.
  intros Hst Hprog Hpc Hinstr Hold Hopc result.
  pose proof (lookup_lt_Some _ _ _ Hinstr) as Hpclt.
  pose proof (lookup_lt_Some _ _ _ Hold) as Haddrlt.
  pose proof (addr_of_nonneg instr) as Haddr0.
  (* FETCH *)
  assert (E0 : Gui.clock_cycle p =
    (Gui.set_state LOAD (Gui.set_pc (Gui.pc p + 1)
       (Gui.log_append (MsgFetch (Gui.pc p) instr)
          (Gui.set_instruction instr (Gui.prologue p)))), inl true)).
  { apply (gui_fetch_next p prog instr Hst Hprog); [lia|].
    rewrite py_getitem_nonneg by lia. exact Hinstr. }
  cbn [Gui.steps]. unfold Gui.outcome.
  set (p1 := Gui.step p).
  assert (H1 : Gui.state p1 = LOAD /\ Gui.instruction p1 = instr /\
               Gui.memory p1 = Gui.memory p /\ Gui.pc p1 = Gui.pc p + 1).
  { unfold p1, Gui.step. rewrite E0. now repeat split. }
  destruct H1 as (Hst1 & Hins1 & Hmem1 & Hpc1).
  (* LOAD *)
  assert (E1 : Gui.clock_cycle p1 =
    (Gui.set_state EXECUTE
       (Gui.record_ram (addr_of instr) old
          (Gui.set_loaded (addr_of instr) (imm_of instr) (opcode_of instr) old
             (Gui.log_append (MsgLoad (addr_of instr) old)
                (Gui.prologue p1)))), inl true)).
  { rewrite <- Hins1. apply (gui_load_step p1 old Hst1).
    rewrite Hins1, Hmem1, py_getitem_nonneg by lia. exact Hold. }
  set (p2 := Gui.step p1).
  assert (H2 : Gui.state p2 = EXECUTE /\ Gui.memory p2 = Gui.memory p /\
               Gui.pc p2 = Gui.pc p + 1 /\
               Gui.loaded_opcode p2 = Some (opcode_of instr) /\
               Gui.loaded_op1 p2 = Some (addr_of instr) /\
               Gui.loaded_op2 p2 = Some (imm_of instr) /\
               Gui.loaded_mem p2 = Some old).
  { unfold p2, Gui.step. rewrite E1. rewrite <- Hmem1, <- Hpc1.
    now repeat split. }
  destruct H2 as (Hst2 & Hmem2 & Hpc2 & Hlo2 & Hl12 & Hl22 & Hlm2).
  (* EXECUTE *)
  assert (Hrange : 0 <= opcode_of instr < 7).
  { pose proof (land_7_range (Z.shiftr instr 8)). unfold opcode_of in *. lia. }
  destruct (op_names_defined _ Hrange) as [op_name Hname].
  pose proof (gui_execute_step p2 _ _ _ _ op_name
                Hst2 Hlo2 Hl12 Hl22 Hlm2 Hname) as E2.
  rewrite (gui_alu_control_defined _ old (imm_of instr) Hrange) in E2.
  fold (operand_a instr old) in E2. cbv zeta in E2.
  set (p3 := Gui.step p2).
  assert (H3 : Gui.state p3 = STORE /\ Gui.memory p3 = Gui.memory p /\
               Gui.pc p3 = Gui.pc p + 1 /\
               Gui.loaded_op1 p3 = Some (addr_of instr) /\
               Gui.alu_result p3 = result).
  { unfold p3, Gui.step. rewrite E2. rewrite <- Hmem2, <- Hpc2, <- Hl12.
    repeat split. unfold result. cbn [fst Gui.alu_result Gui.set_state
      Gui.log_append Gui.set_execution_log Gui.set_alu].
    destruct (Z.eqb_spec (opcode_of instr) 2) as [->|]; reflexivity. }
  destruct H3 as (Hst3 & Hmem3 & Hpc3 & Hl13 & Hres3).
  (* STORE *)
  assert (E3 : Gui.clock_cycle p3 =
    (Gui.set_state FETCH
       (Gui.record_ram (addr_of instr) (Gui.alu_result p3)
          (Gui.log_append (MsgStore (addr_of instr) (Gui.alu_result p3))
             (Gui.set_memory
                (<[Z.to_nat (addr_of instr) := Gui.alu_result p3]>
                   (Gui.memory p3))
                (Gui.prologue p3)))), inl true)).
  { apply (gui_store_step p3 _ _ Hst3 Hl13).
    rewrite Hmem3. apply py_setitem_nonneg. lia. }
  set (p4 := Gui.step p3).
  assert (H4 : Gui.state p4 = FETCH /\ Gui.pc p4 = Gui.pc p + 1 /\
               Gui.memory p4
                 = <[Z.to_nat (addr_of instr) := result]> (Gui.memory p)).
  { unfold p4, Gui.step. rewrite E3. rewrite <- Hpc3, <- Hres3, <- Hmem3.
    now repeat split. }
  destruct H4 as (Hst4 & Hpc4 & Hmem4).
  rewrite E0, E1, E2, E3, Hmem4.
  repeat split; try assumption.
  - apply list_lookup_insert_eq. exact Haddrlt.
  - intros k Hk. apply list_lookup_insert_ne. congruence.
Qed.

(** [STO 0x4 0x5] on a new processor: four cycles, then [memory[4] = 5]. *)
Lemma instruction_cycle_witness :
  Gui.state ready_sto_4_5 = FETCH /\
  Gui.program ready_sto_4_5 = Some [69] /\
  0 <= Gui.pc ready_sto_4_5 /\
  [69] !! Z.to_nat (Gui.pc ready_sto_4_5) = Some 69 /\
  Gui.memory ready_sto_4_5 !! Z.to_nat (addr_of 69) = Some 0 /\
  opcode_of 69 <> 7 /\
  Gui.state (Gui.steps 4 ready_sto_4_5) = FETCH /\
  Gui.pc (Gui.steps 4 ready_sto_4_5) = Gui.pc ready_sto_4_5 + 1 /\
  Gui.memory (Gui.steps 4 ready_sto_4_5)
    = <[4%nat := 5]> (Gui.memory ready_sto_4_5).
Proof.
  assert (Hst : Gui.state ready_sto_4_5 = FETCH) by reflexivity.
  assert (Hprog : Gui.program ready_sto_4_5 = Some [69]) by reflexivity.
  assert (Hpc : 0 <= Gui.pc ready_sto_4_5) by (vm_compute; discriminate).
  assert (Hinstr : [69] !! Z.to_nat (Gui.pc ready_sto_4_5) = Some 69)
    by reflexivity.
  assert (Hold : Gui.memory ready_sto_4_5 !! Z.to_nat (addr_of 69) = Some 0)
    by reflexivity.
  assert (Hopc : opcode_of 69 <> 7) by (vm_compute; discriminate).
  destruct (instruction_cycle ready_sto_4_5 [69] 69 0
              Hst Hprog Hpc Hinstr Hold Hopc)
    as (_ & (_ & _ & _ & Hst4) & Hpc4 & _ & Hmem4 & _).
  repeat split; assumption.
Defined.

(** C2 as stated fails: [STO 0x0 0x0] on a memory of zeros goes through
    its four cycles, writes 0 into cell 0 and leaves the memory equal to
    what it was, so no address has changed. *)
Lemma cycle_can_leave_memory_unchanged :
  Gui.state ready_sto_0_0 = FETCH /\
  Gui.program ready_sto_0_0 = Some [0] /\
  Gui.pc ready_sto_0_0 < Z.of_nat (length [0]) /\
  opcode_of 0 = 0 /\
  Gui.state (Gui.steps 4 ready_sto_0_0) = FETCH /\
  Gui.pc (Gui.steps 4 ready_sto_0_0) = Gui.pc ready_sto_0_0 + 1 /\
  Gui.memory (Gui.steps 4 ready_sto_0_0) = Gui.memory ready_sto_0_0 /\
  ~ changed_at_exactly_one (Gui.memory ready_sto_0_0)
                           (Gui.memory (Gui.steps 4 ready_sto_0_0)).
Proof.
  assert (Hmem : Gui.memory (Gui.steps 4 ready_sto_0_0)
                 = Gui.memory ready_sto_0_0) by reflexivity.
  repeat split; try reflexivity.
  rewrite Hmem. intros (k & Hk & _). now apply Hk.
Qed.

(** ** The undefined opcode *)

(** EXECUTE on opcode 7 raises, and since the state stays EXECUTE with
    the same latches, so does every later call; nothing is written. *)
Lemma gui_opcode_7_stuck (p : Gui.Processor) (op1 op2 mem_val : Z) (n : nat) :
  Gui.state p = EXECUTE ->
  Gui.loaded_opcode p = Some 7 -> Gui.loaded_op1 p = Some op1 ->
  Gui.loaded_op2 p = Some op2 -> Gui.loaded_mem p = Some mem_val ->
  Gui.outcome (Gui.steps n p) = inr IndexError /\
  Gui.state (Gui.steps n p) = EXECUTE /\
  Gui.memory (Gui.steps n p) = Gui.memory p.
Proof.
  intros Hst Hopc Hop1 Hop2 Hmem.
  assert (Gui.state (Gui.steps n p) = EXECUTE /\
          Gui.loaded_opcode (Gui.steps n p) = Some 7 /\
          Gui.loaded_op1 (Gui.steps n p) = Some op1 /\
          Gui.loaded_op2 (Gui.steps n p) = Some op2 /\
          Gui.loaded_mem (Gui.steps n p) = Some mem_val /\
          Gui.memory (Gui.steps n p) = Gui.memory p)
    as (Hst' & Hopc' & Hop1' & Hop2' & Hmem' & Hm').
  { induction n as [|n (IH1 & IH2 & IH3 & IH4 & IH5 & IH6)];
      [now repeat split|].
    rewrite gui_steps_S. unfold Gui.step.
    rewrite (gui_execute_no_mnemonic _ _ _ _ _ IH1 IH2 IH3 IH4 IH5
               op_names_undefined).
    now repeat split. }
  repeat split; try assumption.
  unfold Gui.outcome.
  now rewrite (gui_execute_no_mnemonic _ _ _ _ _ Hst' Hopc' Hop1' Hop2' Hmem'
                 op_names_undefined).
Qed.

(** C1. A program whose only word has opcode 7, on a new processor of
    either file: the INIT, FETCH and LOAD cycles return [True], the
    EXECUTE cycle raises [IndexError] at the lookup of the mnemonic, and
    the processor is left in EXECUTE with [alu_result] never assigned;
    the fallback [(0, False)] of the ALU for select [111] is not
    reached. *)
Theorem undefined_opcode_raises :
  opcode_of 1792 = 7 /\
  ALU_4b_compute 0 0 7 false = (0, false) /\
  (Gui.outcome loaded_opcode_7 = inl true /\
   Gui.outcome (Gui.steps 1 loaded_opcode_7) = inl true /\
   Gui.outcome (Gui.steps 2 loaded_opcode_7) = inl true /\
   Gui.outcome (Gui.steps 3 loaded_opcode_7) = inr IndexError /\
   Gui.state (Gui.steps 4 loaded_opcode_7) = EXECUTE /\
   Gui.outcome (Gui.steps 4 loaded_opcode_7) = inr IndexError) /\
  (let e := Enhanced.load_program [1792] Enhanced.init in
   Enhanced.outcome (Enhanced.steps 3 e) = inr IndexError /\
   Enhanced.state (Enhanced.steps 4 e) = EXECUTE).
Proof. vm_compute. repeat split. Qed.

(** * Further properties *)

(** ** The ALU on arbitrary integers *)

Lemma land_15_mod (z : Z) : Z.land z 15 = z `mod` 16.
Proof. change 15 with (Z.ones 4). now rewrite Z.land_ones by lia. Qed.

Lemma land_7_mod (z : Z) : Z.land z 7 = z `mod` 8.
Proof. change 7 with (Z.ones 3). now rewrite Z.land_ones by lia. Qed.

(** The masks at the top of [ALU_4b.compute] make it a function of the
    low four bits of the operands and the low three bits of the select
    code. *)
Lemma ALU_masks_inputs (a b s : Z) (cin : bool) :
  ALU_4b_compute a b s cin
    = ALU_4b_compute (a `mod` 16) (b `mod` 16) (s `mod` 8) cin.
Proof.
  unfold ALU_4b_compute. rewrite !land_15_mod, !land_7_mod.
  now rewrite !Z.mod_mod by lia.
Qed.

Lemma ALU_reference_masks_inputs (a b s : Z) (cin : bool) :
  ALU_reference a b s cin
    = ALU_reference (a `mod` 16) (b `mod` 16) (s `mod` 8) cin.
Proof. unfold ALU_reference. now rewrite !Z.mod_mod by lia. Qed.

Lemma forall_alu_input_spec (f : Z -> Z -> Z -> bool -> bool) :
  forall_alu_input f = true ->
  forall a b s cin,
    0 <= a <= 15 -> 0 <= b <= 15 -> 0 <= s <= 7 -> f a b s cin = true.
Proof.
  unfold forall_alu_input. intros H a b s cin Ha Hb Hs.
  rewrite forallb_forall in H.
  specialize (H s (range_spec 8 s ltac:(lia))).
  exact (forall_word4_spec _ H a b cin Ha Hb).
Qed.

Lemma ALU_reference_check_all : forall_alu_input ALU_reference_check = true.
Proof. vm_compute. reflexivity. Qed.

(** The gate-level ALU and its arithmetic reference agree everywhere. *)
Lemma ALU_agrees_with_reference (a b s : Z) (cin : bool) :
  ALU_4b_compute a b s cin = ALU_reference a b s cin.
Proof.
  rewrite ALU_masks_inputs, ALU_reference_masks_inputs.
  pose proof (Z.mod_pos_bound a 16 ltac:(lia)) as Ha.
  pose proof (Z.mod_pos_bound b 16 ltac:(lia)) as Hb.
  pose proof (Z.mod_pos_bound s 8 ltac:(lia)) as Hs.
  pose proof (forall_alu_input_spec _ ALU_reference_check_all
                (a `mod` 16) (b `mod` 16) (s `mod` 8) cin
                ltac:(lia) ltac:(lia) ltac:(lia)) as H.
  unfold ALU_reference_check in H.
  destruct (ALU_4b_compute _ _ _ _) as [r c].
  destruct (ALU_reference _ _ _ _) as [r' c'].
  apply andb_true_iff in H as [Hr Hc].
  apply Z.eqb_eq in Hr. apply Bool.eqb_prop in Hc. now subst.
Qed.

(** X1. On any integers, whatever their sign or size, the ALU built from
    the gate models computes the arithmetic of [ALU_reference] on the
    operands taken modulo 16 and the select code modulo 8: transfer, sum
    with carry, difference with carry-out set exactly when there is no
    borrow, bitwise AND, OR and XOR, complement, and [(0, False)] for
    select 7. *)
Theorem ALU_4b_computes_reference (a b s : Z) (cin : bool) :
  ALU_4b_compute a b s cin = ALU_reference a b s cin.
Proof.
  rewrite ALU_masks_inputs, ALU_reference_masks_inputs.
  pose proof (Z.mod_pos_bound a 16 ltac:(lia)) as Ha.
  pose proof (Z.mod_pos_bound b 16 ltac:(lia)) as Hb.
  pose proof (Z.mod_pos_bound s 8 ltac:(lia)) as Hs.
  pose proof (forall_alu_input_spec _ ALU_reference_check_all
                (a `mod` 16) (b `mod` 16) (s `mod` 8) cin
                ltac:(lia) ltac:(lia) ltac:(lia)) as H.
  unfold ALU_reference_check in H.
  destruct (ALU_4b_compute _ _ _ _) as [r c].
  destruct (ALU_reference _ _ _ _) as [r' c'].
  apply andb_true_iff in H as [Hr Hc].
  apply Z.eqb_eq in Hr. apply Bool.eqb_prop in Hc. now subst.
Qed.

(** The result of the ALU always fits in four bits. *)
Lemma ALU_result_word4 (a b s : Z) (cin : bool) :
  0 <= (ALU_4b_compute a b s cin).1 <= 15.
Proof.
  rewrite ALU_agrees_with_reference. unfold ALU_reference.
  pose proof (Z.mod_pos_bound a 16 ltac:(lia)) as Ha.
  pose proof (Z.mod_pos_bound b 16 ltac:(lia)) as Hb.
  set (a' := a `mod` 16) in *. set (b' := b `mod` 16) in *.
  repeat match goal with
         | |- context [if ?x then _ else _] => destruct x
         end; cbn [fst].
  - lia.
  - pose proof (Z.mod_pos_bound (a' + b' + Z.b2z cin) 16 ltac:(lia)). lia.
  - pose proof (Z.mod_pos_bound (a' - b') 16 ltac:(lia)). lia.
  - rewrite <- (land_15_id b') by lia. rewrite Z.land_assoc, land_15_mod.
    pose proof (Z.mod_pos_bound (Z.land a' b') 16 ltac:(lia)). lia.
  - split; [apply Z.lor_nonneg; lia|].
    assert (Z.lor a' b' < 2 ^ 4); [|lia].
    destruct (Z.eq_dec (Z.lor a' b') 0) as [->|Hne]; [lia|].
    apply Z.log2_lt_pow2; [pose proof (Z.lor_nonneg a' b'); lia|].
    rewrite Z.log2_lor by lia.
    apply Z.max_lub_lt.
    + destruct (Z.eq_dec a' 0) as [->|]; [cbn; lia|].
      apply Z.log2_lt_pow2; lia.
    + destruct (Z.eq_dec b' 0) as [->|]; [cbn; lia|].
      apply Z.log2_lt_pow2; lia.
  - split; [apply Z.lxor_nonneg; lia|].
    assert (Z.lxor a' b' < 2 ^ 4); [|lia].
    destruct (Z.eq_dec (Z.lxor a' b') 0) as [->|Hne]; [lia|].
    apply Z.log2_lt_pow2; [pose proof (Z.lxor_nonneg a' b'); lia|].
    eapply Z.le_lt_trans; [apply Z.log2_lxor; lia|].
    apply Z.max_lub_lt.
    + destruct (Z.eq_dec a' 0) as [->|]; [cbn; lia|].
      apply Z.log2_lt_pow2; lia.
    + destruct (Z.eq_dec b' 0) as [->|]; [cbn; lia|].
      apply Z.log2_lt_pow2; lia.
  - lia.
  - lia.
Qed.

(** ** What one clock cycle can and cannot do *)

(** Case analysis that keeps the equation of each test it goes through. *)
Ltac case_branches_eqn :=
  repeat (cbv beta iota;
          match goal with
          | |- context [py_index ?n ?i] => destruct (py_index n i) eqn:?
          | |- context [match ?x with Some _ => _ | None => _ end] =>
              destruct x eqn:?
          | |- context [if ?x then _ else _] => destruct x eqn:?
          | |- context [Gui.alu_control ?o ?m ?i] =>
              destruct (Gui.alu_control o m i) as [[[? ?] ?] ?] eqn:?
          end);
  cbv beta iota.

(** X2. A call of [clock_cycle] that returns [True] moves the control
    state to its successor in the cycle INIT, FETCH, LOAD, EXECUTE, STORE,
    FETCH; a call that returns [False] was made at FETCH and only counted
    the cycle, recorded it and logged the completion; a call that raises
    only counted the cycle and recorded it, so that the control state, the
    memory, the program counter and the ALU outputs are the ones the call
    started from. *)
Theorem clock_cycle_transition (p : Gui.Processor) :
  match Gui.outcome p with
  | inl true => Gui.state (Gui.step p) = next_state (Gui.state p)
  | inl false =>
      Gui.state p = FETCH /\
      Gui.step p = Gui.log_append MsgComplete (Gui.prologue p)
  | inr _ => Gui.step p = Gui.prologue p
  end.
Proof.
  unfold Gui.outcome, Gui.step. rewrite gui_clock_cycle_dispatch.
  generalize (Gui.prologue p). intros q.
  destruct (Gui.state p); unfold_method; case_branches;
    cbn [fst snd]; try reflexivity; now split.
Qed.

(** What each state leaves alone. *)
Lemma gui_step_frame (p : Gui.Processor) :
  Gui.program (Gui.step p) = Gui.program p /\
  length (Gui.memory (Gui.step p)) = length (Gui.memory p) /\
  match Gui.state p with
  | STORE => True
  | _ => Gui.memory (Gui.step p) = Gui.memory p
  end /\
  match Gui.state p with
  | FETCH => True
  | _ => Gui.pc (Gui.step p) = Gui.pc p /\
         Gui.instruction (Gui.step p) = Gui.instruction p
  end /\
  match Gui.state p with
  | EXECUTE => True
  | _ => Gui.alu_result (Gui.step p) = Gui.alu_result p /\
         Gui.alu_cout (Gui.step p) = Gui.alu_cout p
  end /\
  match Gui.state p with
  | LOAD => True
  | _ => Gui.loaded_opcode (Gui.step p) = Gui.loaded_opcode p /\
         Gui.loaded_op1 (Gui.step p) = Gui.loaded_op1 p /\
         Gui.loaded_op2 (Gui.step p) = Gui.loaded_op2 p /\
         Gui.loaded_mem (Gui.step p) = Gui.loaded_mem p
  end.
Proof.
  unfold Gui.step. rewrite gui_clock_cycle_dispatch.
  destruct p as [mem pc st ins res cout cyc elog w prog l1 l2 lo lm].
  unfold_state.
  destruct st; unfold_method; unfold py_setitem; unfold_state;
    case_branches; unfold_state; rewrite ?length_insert; repeat split.
Qed.

(** X3. [clock_cycle] never assigns [program] and never changes the
    number of memory cells; it leaves the memory alone outside STORE, the
    program counter and the instruction register alone outside FETCH, the
    ALU result and carry-out alone outside EXECUTE, and the four decode
    latches alone outside LOAD. *)
Theorem clock_cycle_frame (p : Gui.Processor) :
  Gui.program (Gui.step p) = Gui.program p /\
  length (Gui.memory (Gui.step p)) = length (Gui.memory p) /\
  match Gui.state p with
  | STORE => True
  | _ => Gui.memory (Gui.step p) = Gui.memory p
  end /\
  match Gui.state p with
  | FETCH => True
  | _ => Gui.pc (Gui.step p) = Gui.pc p /\
         Gui.instruction (Gui.step p) = Gui.instruction p
  end /\
  match Gui.state p with
  | EXECUTE => True
  | _ => Gui.alu_result (Gui.step p) = Gui.alu_result p /\
         Gui.alu_cout (Gui.step p) = Gui.alu_cout p
  end /\
  match Gui.state p with
  | LOAD => True
  | _ => Gui.loaded_opcode (Gui.step p) = Gui.loaded_opcode p /\
         Gui.loaded_op1 (Gui.step p) = Gui.loaded_op1 p /\
         Gui.loaded_op2 (Gui.step p) = Gui.loaded_op2 p /\
         Gui.loaded_mem (Gui.step p) = Gui.loaded_mem p
  end.
Proof.
  unfold Gui.step. rewrite gui_clock_cycle_dispatch.
  destruct p as [mem pc st ins res cout cyc elog w prog l1 l2 lo lm].
  unfold_state.
  destruct st; unfold_method; unfold py_setitem; unfold_state;
    case_branches; unfold_state; rewrite ?length_insert; repeat split.
Qed.

(** ** Invariants of the processors a driver can build *)

(** A property of the new processor that every call preserves holds after
    any sequence of calls. *)
Lemma gui_run_calls_ind (P : Gui.Processor -> Prop) :
  P Gui.init ->
  (forall c p, P p -> P (Gui.apply_call c p).1) ->
  forall cs, P (Gui.run_calls cs Gui.init).
Proof.
  intros Hinit Hstep cs. unfold Gui.run_calls.
  generalize Gui.init Hinit. induction cs as [|c cs IH]; intros p Hp.
  - exact Hp.
  - cbn [fold_left]. apply IH, Hstep, Hp.
Qed.

Lemma gui_apply_call_clock (p : Gui.Processor) :
  (Gui.apply_call CallClock p).1 = Gui.step p.
Proof.
  cbn [Gui.apply_call]. unfold Gui.step. now destruct (Gui.clock_cycle p).
Qed.

Lemma gui_word4_inv_step (p : Gui.Processor) :
  gui_word4_inv p -> gui_word4_inv (Gui.step p).
Proof.
  unfold Gui.step. rewrite gui_clock_cycle_dispatch.
  destruct p as [mem pc st ins res cout cyc elog w prog l1 l2 lo lm].
  unfold gui_word4_inv. unfold_state. intros (Hlen & Hmem & Hres).
  destruct st; unfold_method; unfold py_setitem; unfold_state;
    case_branches; unfold_state; rewrite ?length_insert;
    repeat split; try assumption; try apply Hres.
  - apply (ALU_result_word4 _ _ _ _).
  - apply (ALU_result_word4 _ _ _ _).
  - now apply Forall_insert.
Qed.

(** X4. After any sequence of [clock_cycle], [reset] and [load_program]
    calls on a new processor, whatever integers the program holds, the
    memory still has sixteen cells, every cell holds a value between 0 and
    15, and so does the ALU result register. *)
Theorem memory_stays_word4 (cs : list call) :
  length (Gui.memory (Gui.run_calls cs Gui.init)) = 16%nat /\
  Forall word4 (Gui.memory (Gui.run_calls cs Gui.init)) /\
  word4 (Gui.alu_result (Gui.run_calls cs Gui.init)).
Proof.
  apply (gui_run_calls_ind gui_word4_inv).
  - split; [reflexivity|]. split; [|unfold word4; cbn; lia].
    apply Forall_forall. intros x Hx. apply elem_of_replicate in Hx as [-> _].
    unfold word4. lia.
  - intros [| |prog] p Hp.
    + rewrite gui_apply_call_clock. now apply gui_word4_inv_step.
    + destruct Hp as (Hlen & Hmem & _).
      split; [exact Hlen|]. split; [exact Hmem|]. unfold word4. cbn. lia.
    + exact Hp.
Qed.

Lemma clk_alternates_snoc (l : list Z) (c : Z) :
  c = Z.of_nat (length l) ->
  (forall (k : nat) (v : Z), l !! k = Some v -> v = (Z.of_nat k + 1) `mod` 2) ->
  forall (k : nat) (v : Z),
    (l ++ [(c + 1) `mod` 2]) !! k = Some v -> v = (Z.of_nat k + 1) `mod` 2.
Proof.
  intros -> Hl k v Hk. apply lookup_app_Some in Hk as [Hk | [Hge Hk]].
  - now apply Hl.
  - apply list_lookup_singleton_Some in Hk as [Hk <-].
    replace k with (length l) by lia. reflexivity.
Qed.

Lemma gui_recorder_inv_step (p : Gui.Processor) :
  gui_recorder_inv p -> gui_recorder_inv (Gui.step p).
Proof.
  unfold Gui.step. rewrite gui_clock_cycle_dispatch.
  destruct p as [mem pc st ins res cout cyc elog [c1 c2 c3 c4 c5 c6] prog
                 l1 l2 lo lm].
  unfold gui_recorder_inv. unfold_state.
  intros (Hcyc & H2 & H3 & H4 & H5 & Halt).
  pose proof (clk_alternates_snoc c1 cyc Hcyc Halt) as Halt'.
  destruct st; unfold_method; unfold_state;
    case_branches; unfold_state; rewrite ?length_app; cbn [length];
    (split; [lia|]); (split; [lia|]); (split; [lia|]); (split; [lia|]);
    (split; [lia|]); exact Halt'.
Qed.

(** X5. After any sequence of calls on a new processor, each of the
    [clk], [pc], [state] and [alu_out] histories holds exactly
    [cycle_count] samples, that is one per [clock_cycle] call since the
    last [reset]; the clock samples read 1, 0, 1, 0, ... from the first;
    and [ram_addr] and [ram_data] have the same length. *)
Theorem recorder_tracks_cycle_count (cs : list call) :
  let p := Gui.run_calls cs Gui.init in
  let w := Gui.waveform_history p in
  Gui.cycle_count p = Z.of_nat (length (Gui.clk w)) /\
  length (Gui.w_pc w) = length (Gui.clk w) /\
  length (Gui.w_state w) = length (Gui.clk w) /\
  length (Gui.alu_out w) = length (Gui.clk w) /\
  length (Gui.ram_addr w) = length (Gui.ram_data w) /\
  (forall (k : nat) (v : Z),
     Gui.clk w !! k = Some v -> v = (Z.of_nat k + 1) `mod` 2).
Proof.
  apply (gui_run_calls_ind gui_recorder_inv).
  - repeat split. intros k v Hk. cbn in Hk. now rewrite lookup_nil in Hk.
  - intros [| |prog] p Hp.
    + rewrite gui_apply_call_clock. now apply gui_recorder_inv_step.
    + repeat split. intros k v Hk. cbn in Hk. now rewrite lookup_nil in Hk.
    + exact Hp.
Qed.








(** ** Running a whole program *)

Lemma exec_instr_length (mem : list Z) (instr : Z) :
  length (exec_instr mem instr) = length mem.
Proof.
  unfold exec_instr. destruct (mem !! _); [apply length_insert|reflexivity].
Qed.

Lemma fold_exec_instr_length (prog : list Z) (mem : list Z) :
  length (fold_left exec_instr prog mem) = length mem.
Proof.
  revert mem. induction prog as [|i prog IH]; intros mem; [reflexivity|].
  cbn [fold_left]. now rewrite IH, exec_instr_length.
Qed.

Lemma gui_steps_add (m n : nat) (p : Gui.Processor) :
  Gui.steps (m + n) p = Gui.steps n (Gui.steps m p).
Proof.
  revert p. induction m as [|m IH]; intros p; [reflexivity|]. apply IH.
Qed.

(** The four cycles of one instruction with a defined opcode, from
    FETCH: every call returns [True], the first three leave the memory
    alone, and the processor is back at FETCH one word further with the
    effect of the instruction on the memory. *)
Lemma gui_instruction_steps (p : Gui.Processor) (prog : list Z) (instr : Z) :
  Gui.state p = FETCH ->
  Gui.program p = Some prog ->
  0 <= Gui.pc p ->
  prog !! Z.to_nat (Gui.pc p) = Some instr ->
  length (Gui.memory p) = 16%nat ->
  defined_opcode instr ->
  (forall j : nat, (j < 4)%nat ->
     Gui.outcome (Gui.steps j p) = inl true /\
     Gui.memory (Gui.steps j p) = Gui.memory p) /\
  Gui.state (Gui.steps 4 p) = FETCH /\
  Gui.pc (Gui.steps 4 p) = Gui.pc p + 1 /\
  Gui.memory (Gui.steps 4 p) = exec_instr (Gui.memory p) instr.
Proof.
  intros Hst Hprog Hpc Hinstr Hlen Hopc.
  pose proof (lookup_lt_Some _ _ _ Hinstr) as Hpclt.
  pose proof (land_15_range (Z.shiftr instr 4)) as Haddr.
  fold (addr_of instr) in Haddr.
  destruct (lookup_lt_is_Some_2 (Gui.memory p) (Z.to_nat (addr_of instr))
              ltac:(lia)) as [old Hold].
  unfold exec_instr. rewrite Hold.
  set (result := (ALU_4b_compute (operand_a instr old) (imm_of instr)
                                 (opcode_of instr) false).1).
  assert (E0 : Gui.clock_cycle p =
    (Gui.set_state LOAD (Gui.set_pc (Gui.pc p + 1)
       (Gui.log_append (MsgFetch (Gui.pc p) instr)
          (Gui.set_instruction instr (Gui.prologue p)))), inl true)).
  { apply (gui_fetch_next p prog instr Hst Hprog); [lia|].
    rewrite py_getitem_nonneg by lia. exact Hinstr. }
  set (p1 := Gui.step p).
  assert (H1 : Gui.state p1 = LOAD /\ Gui.instruction p1 = instr /\
               Gui.memory p1 = Gui.memory p /\ Gui.pc p1 = Gui.pc p + 1).
  { unfold p1, Gui.step. rewrite E0. now repeat split. }
  destruct H1 as (Hst1 & Hins1 & Hmem1 & Hpc1).
  assert (E1 : Gui.clock_cycle p1 =
    (Gui.set_state EXECUTE
       (Gui.record_ram (addr_of instr) old
          (Gui.set_loaded (addr_of instr) (imm_of instr) (opcode_of instr) old
             (Gui.log_append (MsgLoad (addr_of instr) old)
                (Gui.prologue p1)))), inl true)).
  { rewrite <- Hins1. apply (gui_load_step p1 old Hst1).
    rewrite Hins1, Hmem1, py_getitem_nonneg by lia. exact Hold. }
  set (p2 := Gui.step p1).
  assert (H2 : Gui.state p2 = EXECUTE /\ Gui.memory p2 = Gui.memory p /\
               Gui.pc p2 = Gui.pc p + 1 /\
               Gui.loaded_opcode p2 = Some (opcode_of instr) /\
               Gui.loaded_op1 p2 = Some (addr_of instr) /\
               Gui.loaded_op2 p2 = Some (imm_of instr) /\
               Gui.loaded_mem p2 = Some old).
  { unfold p2, Gui.step. rewrite E1. rewrite <- Hmem1, <- Hpc1.
    now repeat split. }
  destruct H2 as (Hst2 & Hmem2 & Hpc2 & Hlo2 & Hl12 & Hl22 & Hlm2).
  assert (Hrange : 0 <= opcode_of instr < 7).
  { pose proof (land_7_range (Z.shiftr instr 8)).
    unfold defined_opcode, opcode_of in *. lia. }
  destruct (op_names_defined _ Hrange) as [op_name Hname].
  pose proof (gui_execute_step p2 _ _ _ _ op_name
                Hst2 Hlo2 Hl12 Hl22 Hlm2 Hname) as E2.
  rewrite (gui_alu_control_defined _ old (imm_of instr) Hrange) in E2.
  fold (operand_a instr old) in E2. cbv zeta in E2.
  set (p3 := Gui.step p2).
  assert (H3 : Gui.state p3 = STORE /\ Gui.memory p3 = Gui.memory p /\
               Gui.pc p3 = Gui.pc p + 1 /\
               Gui.loaded_op1 p3 = Some (addr_of instr) /\
               Gui.alu_result p3 = result).
  { unfold p3, Gui.step. rewrite E2. rewrite <- Hmem2, <- Hpc2, <- Hl12.
    repeat split. unfold result. cbn [fst Gui.alu_result Gui.set_state
      Gui.log_append Gui.set_execution_log Gui.set_alu].
    destruct (Z.eqb_spec (opcode_of instr) 2) as [->|]; reflexivity. }
  destruct H3 as (Hst3 & Hmem3 & Hpc3 & Hl13 & Hres3).
  assert (E3 : Gui.clock_cycle p3 =
    (Gui.set_state FETCH
       (Gui.record_ram (addr_of instr) (Gui.alu_result p3)
          (Gui.log_append (MsgStore (addr_of instr) (Gui.alu_result p3))
             (Gui.set_memory
                (<[Z.to_nat (addr_of instr) := Gui.alu_result p3]>
                   (Gui.memory p3))
                (Gui.prologue p3)))), inl true)).
  { apply (gui_store_step p3 _ _ Hst3 Hl13).
    rewrite Hmem3. apply py_setitem_nonneg. lia. }
  assert (H4 : Gui.state (Gui.step p3) = FETCH /\
               Gui.pc (Gui.step p3) = Gui.pc p + 1 /\
               Gui.memory (Gui.step p3)
                 = <[Z.to_nat (addr_of instr) := result]> (Gui.memory p)).
  { unfold Gui.step. rewrite E3. rewrite <- Hpc3, <- Hres3, <- Hmem3.
    now repeat split. }
  destruct H4 as (Hst4 & Hpc4 & Hmem4).
  split; [|now repeat split].
  intros j Hj. unfold Gui.outcome.
  destruct j as [|[|[|[|j]]]]; [| | | |lia]; cbn [Gui.steps];
    fold p1; try fold p2; try fold p3.
  - now rewrite E0.
  - now rewrite E1.
  - now rewrite E2.
  - now rewrite E3.
Qed.

Lemma gui_steps_program (n : nat) (p : Gui.Processor) :
  Gui.program (Gui.steps n p) = Gui.program p.
Proof.
  revert p. induction n as [|n IH]; intros p; [reflexivity|].
  cbn [Gui.steps]. rewrite IH. apply gui_step_frame.
Qed.

Lemma gui_steps_cycle_count (n : nat) (p : Gui.Processor) :
  Gui.cycle_count (Gui.steps n p) = Gui.cycle_count p + Z.of_nat n.
Proof.
  revert p. induction n as [|n IH]; intros p; [cbn; lia|].
  cbn [Gui.steps]. rewrite IH, gui_step_cycle_count. lia.
Qed.

Lemma gui_steps_memory_length (n : nat) (p : Gui.Processor) :
  length (Gui.memory (Gui.steps n p)) = length (Gui.memory p).
Proof.
  revert p. induction n as [|n IH]; intros p; [reflexivity|].
  cbn [Gui.steps]. rewrite IH. apply gui_step_frame.
Qed.

(** [run_loop] in terms of single calls: it gives up after [max_cycles]
    calls that all returned [True], and stops at the first call that
    returns [False] or raises. *)
Lemma gui_run_loop_exhausted (n : nat) (p : Gui.Processor) :
  (forall j : nat, (j < n)%nat -> Gui.outcome (Gui.steps j p) = inl true) ->
  Gui.run_loop n p = (Gui.steps n p, inl false).
Proof.
  revert p. induction n as [|n IH]; intros p Hall; [reflexivity|].
  pose proof (Hall 0%nat ltac:(lia)) as H0. cbn [Gui.steps] in H0.
  cbn [Gui.run_loop Gui.steps]. unfold bind.
  unfold Gui.outcome in H0. unfold Gui.step at 1.
  destruct (Gui.clock_cycle p) as [p' r] eqn:Hcc. cbn [fst snd] in *.
  subst r. rewrite <- (IH p').
  - reflexivity.
  - intros j Hj. specialize (Hall (S j) ltac:(lia)).
    cbn [Gui.steps] in Hall. unfold Gui.step in Hall at 1.
    now rewrite Hcc in Hall.
Qed.

Lemma gui_run_loop_stops (m n : nat) (p : Gui.Processor) :
  (forall j : nat, (j < m)%nat -> Gui.outcome (Gui.steps j p) = inl true) ->
  Gui.outcome (Gui.steps m p) <> inl true ->
  (m < n)%nat ->
  Gui.run_loop n p =
    (Gui.steps (S m) p,
     match Gui.outcome (Gui.steps m p) with
     | inl _ => inl true
     | inr e => inr e
     end).
Proof.
  revert n p. induction m as [|m IH]; intros n p Hall Hstop Hlt.
  - destruct n as [|n]; [lia|]. cbn [Gui.run_loop Gui.steps] in *.
    unfold bind, Gui.outcome, Gui.step in *.
    destruct (Gui.clock_cycle p) as [p' [[|]|e]]; cbn [fst snd] in *;
      [congruence|reflexivity|reflexivity].
  - destruct n as [|n]; [lia|].
    pose proof (Hall 0%nat ltac:(lia)) as H0. cbn [Gui.steps] in H0.
    cbn [Gui.run_loop]. unfold bind.
    change (Gui.steps (S (S m)) p) with (Gui.steps (S m) (Gui.step p)).
    change (Gui.steps (S m) p) with (Gui.steps m (Gui.step p)) in *.
    unfold Gui.outcome in H0. unfold Gui.step in *.
    destruct (Gui.clock_cycle p) as [p' r] eqn:Hcc. cbn [fst snd] in *.
    subst r. apply IH; [|assumption|lia].
    intros j Hj. specialize (Hall (S j) ltac:(lia)).
    cbn [Gui.steps] in Hall. unfold Gui.step in Hall at 1.
    now rewrite Hcc in Hall.
Qed.

(** The first [length instrs] instructions from the program counter on, all
    with defined opcodes: each takes four calls that return [True], and
    after [j] calls the memory holds the effect of the [j / 4] instructions
    that have gone through STORE. *)
Lemma gui_program_steps (instrs : list Z) :
  forall (p : Gui.Processor) (prog : list Z),
    Gui.state p = FETCH ->
    Gui.program p = Some prog ->
    0 <= Gui.pc p ->
    length (Gui.memory p) = 16%nat ->
    Forall defined_opcode instrs ->
    (forall (i : nat) (instr : Z),
       instrs !! i = Some instr ->
       prog !! (Z.to_nat (Gui.pc p) + i)%nat = Some instr) ->
    (forall j : nat, (j < 4 * length instrs)%nat ->
       Gui.outcome (Gui.steps j p) = inl true) /\
    (forall j : nat, (j <= 4 * length instrs)%nat ->
       Gui.memory (Gui.steps j p)
         = fold_left exec_instr (take (j / 4) instrs) (Gui.memory p)) /\
    Gui.state (Gui.steps (4 * length instrs) p) = FETCH /\
    Gui.pc (Gui.steps (4 * length instrs) p)
      = Gui.pc p + Z.of_nat (length instrs).
Proof.
  induction instrs as [|instr instrs IH];
    intros p prog Hst Hprog Hpc Hlen Hdef Hat.
  - cbn [length]. split; [intros j Hj; lia|].
    split; [|split; [exact Hst|cbn; lia]].
    intros j Hj. replace j with 0%nat by lia. reflexivity.
  - apply Forall_cons in Hdef as [Hd Hdef].
    assert (Hinstr : prog !! Z.to_nat (Gui.pc p) = Some instr).
    { rewrite <- (Nat.add_0_r (Z.to_nat (Gui.pc p))). now apply Hat. }
    destruct (gui_instruction_steps p prog instr Hst Hprog Hpc Hinstr Hlen Hd)
      as (Hfour & Hst4 & Hpc4 & Hmem4).
    destruct (IH (Gui.steps 4 p) prog Hst4) as (Hout & Hmem & Hstk & Hpck).
    { now rewrite gui_steps_program. }
    { lia. }
    { now rewrite gui_steps_memory_length. }
    { exact Hdef. }
    { intros i x Hx. rewrite Hpc4.
      replace (Z.to_nat (Gui.pc p + 1) + i)%nat
        with (Z.to_nat (Gui.pc p) + S i)%nat by lia.
      now apply Hat. }
    cbn [length].
    replace (4 * S (length instrs))%nat with (4 + 4 * length instrs)%nat by lia.
    rewrite gui_steps_add, Hstk, Hpck, Hpc4.
    split; [|split; [|split; [reflexivity|lia]]].
    + intros j Hj. destruct (Nat.lt_ge_cases j 4) as [Hj4|Hj4].
      * now apply Hfour.
      * replace j with (4 + (j - 4))%nat by lia. rewrite gui_steps_add.
        apply Hout. lia.
    + intros j Hj. destruct (Nat.lt_ge_cases j 4) as [Hj4|Hj4].
      * rewrite (Nat.div_small j 4) by lia. now apply Hfour.
      * replace j with ((j - 4) + 1 * 4)%nat at 2 by lia.
        rewrite Nat.div_add by lia.
        replace ((j - 4) / 4 + 1)%nat with (S ((j - 4) / 4)) by lia.
        cbn [take fold_left]. rewrite <- Hmem4.
        replace j with (4 + (j - 4))%nat at 1 by lia.
        rewrite gui_steps_add. apply Hmem. lia.
Qed.

Lemma gui_run_program_unfold (n : nat) (p : Gui.Processor) :
  Gui.run_program n p = Gui.run_loop n (Gui.set_state FETCH (Gui.reset p)).
Proof. reflexivity. Qed.

(** The processor on which [run_program] starts its loop, seen from the
    program of the processor it was called on. *)
Lemma gui_run_program_start (p : Gui.Processor) (prog : list Z)
      (instrs : list Z) :
  Gui.program p = Some prog ->
  length (Gui.memory p) = 16%nat ->
  Forall defined_opcode instrs ->
  (forall (i : nat) (instr : Z),
     instrs !! i = Some instr -> prog !! i = Some instr) ->
  let p0 := Gui.set_state FETCH (Gui.reset p) in
  (forall j : nat, (j < 4 * length instrs)%nat ->
     Gui.outcome (Gui.steps j p0) = inl true) /\
  (forall j : nat, (j <= 4 * length instrs)%nat ->
     Gui.memory (Gui.steps j p0)
       = fold_left exec_instr (take (j / 4) instrs) (Gui.memory p)) /\
  Gui.state (Gui.steps (4 * length instrs) p0) = FETCH /\
  Gui.pc (Gui.steps (4 * length instrs) p0) = Z.of_nat (length instrs) /\
  Gui.program (Gui.steps (4 * length instrs) p0) = Some prog /\
  length (Gui.memory (Gui.steps (4 * length instrs) p0)) = 16%nat.
Proof.
  intros Hprog Hlen Hdef Hat p0.
  destruct (gui_program_steps instrs p0 prog eq_refl Hprog
              ltac:(cbn; lia) Hlen Hdef Hat) as (Hout & Hmem & Hst & Hpc).
  rewrite gui_steps_program, gui_steps_memory_length.
  repeat split; assumption.
Qed.

(** A program of defined opcodes, given enough cycles, runs to its end. *)
Lemma gui_run_program_complete (p : Gui.Processor) (prog : list Z)
        (max_cycles : nat) :
  Gui.program p = Some prog ->
  length (Gui.memory p) = 16%nat ->
  Forall defined_opcode prog ->
  (4 * length prog < max_cycles)%nat ->
  (Gui.run_program max_cycles p).2 = inl true /\
  Gui.memory (Gui.run_program max_cycles p).1
    = fold_left exec_instr prog (Gui.memory p) /\
  Gui.pc (Gui.run_program max_cycles p).1 = Z.of_nat (length prog) /\
  Gui.state (Gui.run_program max_cycles p).1 = FETCH /\
  Gui.cycle_count (Gui.run_program max_cycles p).1
    = 4 * Z.of_nat (length prog) + 1.
Proof.
  intros Hprog Hlen Hdef Hmax.
  destruct (gui_run_program_start p prog prog Hprog Hlen Hdef ltac:(auto))
    as (Hout & Hmem & Hst & Hpc & Hprog' & Hlen').
  rewrite gui_run_program_unfold.
  set (p0 := Gui.set_state FETCH (Gui.reset p)) in *.
  set (k := (4 * length prog)%nat) in *.
  pose proof (gui_fetch_halt (Gui.steps k p0) prog Hst Hprog' ltac:(lia))
    as Hhalt.
  assert (Hstop : Gui.outcome (Gui.steps k p0) = inl false)
    by (unfold Gui.outcome; now rewrite Hhalt).
  rewrite (gui_run_loop_stops k max_cycles p0 Hout) by (congruence || lia).
  rewrite Hstop. cbn [fst snd].
  rewrite gui_steps_S. split; [reflexivity|].
  split; [|split; [|split]].
  - unfold Gui.step. rewrite Hhalt. cbn [fst].
    change (Gui.memory (Gui.log_append MsgComplete
                          (Gui.prologue (Gui.steps k p0))))
      with (Gui.memory (Gui.steps k p0)).
    rewrite (Hmem k) by lia. unfold k.
    replace (4 * length prog / 4)%nat with (length prog)
      by (rewrite Nat.mul_comm, Nat.div_mul; lia).
    now rewrite firstn_all.
  - unfold Gui.step. rewrite Hhalt. exact Hpc.
  - unfold Gui.step. rewrite Hhalt. exact Hst.
  - rewrite gui_step_cycle_count, gui_steps_cycle_count. unfold k.
    change (Gui.cycle_count p0) with 0. lia.
Qed.

(** X8. [run_program] on a processor with sixteen memory cells and a
    loaded program whose words all have a defined opcode, with more than
    four cycles per word allowed: it returns [True] after exactly
    [4 * len(program) + 1] cycles, the program counter is at the end of
    the program, the state is FETCH, and the memory is what the
    instructions make of the memory the call started from, applied one
    after the other in program order. *)
Theorem run_program_completes (p : Gui.Processor) (prog : list Z)
        (max_cycles : nat) :
  Gui.program p = Some prog ->
  length (Gui.memory p) = 16%nat ->
  Forall defined_opcode prog ->
  (4 * length prog < max_cycles)%nat ->
  (Gui.run_program max_cycles p).2 = inl true /\
  Gui.memory (Gui.run_program max_cycles p).1
    = fold_left exec_instr prog (Gui.memory p) /\
  Gui.pc (Gui.run_program max_cycles p).1 = Z.of_nat (length prog) /\
  Gui.state (Gui.run_program max_cycles p).1 = FETCH /\
  Gui.cycle_count (Gui.run_program max_cycles p).1
    = 4 * Z.of_nat (length prog) + 1.
Proof.
  intros Hprog Hlen Hdef Hmax.
  destruct (gui_run_program_start p prog prog Hprog Hlen Hdef ltac:(auto))
    as (Hout & Hmem & Hst & Hpc & Hprog' & Hlen').
  rewrite gui_run_program_unfold.
  set (p0 := Gui.set_state FETCH (Gui.reset p)) in *.
  set (k := (4 * length prog)%nat) in *.
  pose proof (gui_fetch_halt (Gui.steps k p0) prog Hst Hprog' ltac:(lia))
    as Hhalt.
  assert (Hstop : Gui.outcome (Gui.steps k p0) = inl false)
    by (unfold Gui.outcome; now rewrite Hhalt).
  rewrite (gui_run_loop_stops k max_cycles p0 Hout) by (congruence || lia).
  rewrite Hstop. cbn [fst snd].
  rewrite gui_steps_S. split; [reflexivity|].
  split; [|split; [|split]].
  - unfold Gui.step. rewrite Hhalt. cbn [fst].
    change (Gui.memory (Gui.log_append MsgComplete
                          (Gui.prologue (Gui.steps k p0))))
      with (Gui.memory (Gui.steps k p0)).
    rewrite (Hmem k) by lia. unfold k.
    replace (4 * length prog / 4)%nat with (length prog)
      by (rewrite Nat.mul_comm, Nat.div_mul; lia).
    now rewrite firstn_all.
  - unfold Gui.step. rewrite Hhalt. exact Hpc.
  - unfold Gui.step. rewrite Hhalt. exact Hst.
  - rewrite gui_step_cycle_count, gui_steps_cycle_count. unfold k.
    change (Gui.cycle_count p0) with 0. lia.
Qed.

(** The sample program on a new processor, one hundred cycles allowed. *)
Lemma run_program_completes_witness :
  Gui.program (Gui.load_program default_program Gui.init)
    = Some default_program /\
  length (Gui.memory (Gui.load_program default_program Gui.init)) = 16%nat /\
  Forall defined_opcode default_program /\
  (4 * length default_program < 100)%nat /\
  (Gui.run_program 100 (Gui.load_program default_program Gui.init)).2
    = inl true /\
  Gui.cycle_count
    (Gui.run_program 100 (Gui.load_program default_program Gui.init)).1
    = 4 * Z.of_nat (length default_program) + 1.
Proof.
  assert (Hdef : Forall defined_opcode default_program).
  { repeat constructor; vm_compute; discriminate. }
  assert (Hmax : (4 * length default_program < 100)%nat) by (cbn; lia).
  split; [reflexivity|]. split; [reflexivity|]. split; [exact Hdef|].
  split; [exact Hmax|].
  destruct (run_program_completes
              (Gui.load_program default_program Gui.init) default_program 100
              eq_refl eq_refl Hdef Hmax) as (Hr & _ & _ & _ & Hc).
  split; assumption.
Defined.

(** X9. With at most four cycles per word allowed, [run_program] on such
    a program returns [False] after exactly [max_cycles] cycles, and the
    memory holds the effect of the first [max_cycles / 4] instructions,
    the ones whose STORE cycle was reached. *)
Theorem run_program_times_out (p : Gui.Processor) (prog : list Z)
        (max_cycles : nat) :
  Gui.program p = Some prog ->
  length (Gui.memory p) = 16%nat ->
  Forall defined_opcode prog ->
  (max_cycles <= 4 * length prog)%nat ->
  (Gui.run_program max_cycles p).2 = inl false /\
  Gui.cycle_count (Gui.run_program max_cycles p).1 = Z.of_nat max_cycles /\
  Gui.memory (Gui.run_program max_cycles p).1
    = fold_left exec_instr (take (max_cycles / 4) prog) (Gui.memory p).
Proof.
  intros Hprog Hlen Hdef Hmax.
  destruct (gui_run_program_start p prog prog Hprog Hlen Hdef ltac:(auto))
    as (Hout & Hmem & _).
  rewrite gui_run_program_unfold.
  set (p0 := Gui.set_state FETCH (Gui.reset p)) in *.
  rewrite (gui_run_loop_exhausted max_cycles p0)
    by (intros j Hj; apply Hout; lia).
  cbn [fst snd]. split; [reflexivity|]. split.
  - rewrite gui_steps_cycle_count. change (Gui.cycle_count p0) with 0. lia.
  - now apply Hmem.
Qed.

(** The sample program with ten cycles allowed: two instructions done. *)
Lemma run_program_times_out_witness :
  Gui.program (Gui.load_program default_program Gui.init)
    = Some default_program /\
  length (Gui.memory (Gui.load_program default_program Gui.init)) = 16%nat /\
  Forall defined_opcode default_program /\
  (10 <= 4 * length default_program)%nat /\
  (Gui.run_program 10 (Gui.load_program default_program Gui.init)).2
    = inl false /\
  Gui.memory (Gui.run_program 10
                (Gui.load_program default_program Gui.init)).1 !! 4%nat
    = Some 11.
Proof.
  assert (Hdef : Forall defined_opcode default_program).
  { repeat constructor; vm_compute; discriminate. }
  assert (Hmax : (10 <= 4 * length default_program)%nat) by (cbn; lia).
  split; [reflexivity|]. split; [reflexivity|]. split; [exact Hdef|].
  split; [exact Hmax|].
  destruct (run_program_times_out
              (Gui.load_program default_program Gui.init) default_program 10
              eq_refl eq_refl Hdef Hmax) as (Hr & _ & Hm).
  split; [exact Hr|]. rewrite Hm. reflexivity.
Defined.

(** FETCH and LOAD of a word with opcode 7 go through; its EXECUTE
    raises. *)
Lemma gui_undefined_steps (p : Gui.Processor) (prog : list Z) (instr : Z) :
  Gui.state p = FETCH ->
  Gui.program p = Some prog ->
  0 <= Gui.pc p ->
  prog !! Z.to_nat (Gui.pc p) = Some instr ->
  length (Gui.memory p) = 16%nat ->
  opcode_of instr = 7 ->
  Gui.outcome p = inl true /\
  Gui.outcome (Gui.steps 1 p) = inl true /\
  Gui.outcome (Gui.steps 2 p) = inr IndexError /\
  Gui.state (Gui.steps 3 p) = EXECUTE /\
  Gui.pc (Gui.steps 3 p) = Gui.pc p + 1 /\
  Gui.memory (Gui.steps 3 p) = Gui.memory p.
Proof.
  intros Hst Hprog Hpc Hinstr Hlen Hopc.
  pose proof (lookup_lt_Some _ _ _ Hinstr) as Hpclt.
  pose proof (land_15_range (Z.shiftr instr 4)) as Haddr.
  fold (addr_of instr) in Haddr.
  destruct (lookup_lt_is_Some_2 (Gui.memory p) (Z.to_nat (addr_of instr))
              ltac:(lia)) as [old Hold].
  assert (E0 : Gui.clock_cycle p =
    (Gui.set_state LOAD (Gui.set_pc (Gui.pc p + 1)
       (Gui.log_append (MsgFetch (Gui.pc p) instr)
          (Gui.set_instruction instr (Gui.prologue p)))), inl true)).
  { apply (gui_fetch_next p prog instr Hst Hprog); [lia|].
    rewrite py_getitem_nonneg by lia. exact Hinstr. }
  cbn [Gui.steps]. unfold Gui.outcome.
  set (p1 := Gui.step p).
  assert (H1 : Gui.state p1 = LOAD /\ Gui.instruction p1 = instr /\
               Gui.memory p1 = Gui.memory p /\ Gui.pc p1 = Gui.pc p + 1).
  { unfold p1, Gui.step. rewrite E0. now repeat split. }
  destruct H1 as (Hst1 & Hins1 & Hmem1 & Hpc1).
  assert (E1 : Gui.clock_cycle p1 =
    (Gui.set_state EXECUTE
       (Gui.record_ram (addr_of instr) old
          (Gui.set_loaded (addr_of instr) (imm_of instr) (opcode_of instr) old
             (Gui.log_append (MsgLoad (addr_of instr) old)
                (Gui.prologue p1)))), inl true)).
  { rewrite <- Hins1. apply (gui_load_step p1 old Hst1).
    rewrite Hins1, Hmem1, py_getitem_nonneg by lia. exact Hold. }
  set (p2 := Gui.step p1).
  assert (H2 : Gui.state p2 = EXECUTE /\ Gui.memory p2 = Gui.memory p /\
               Gui.pc p2 = Gui.pc p + 1 /\
               Gui.loaded_opcode p2 = Some 7 /\
               Gui.loaded_op1 p2 = Some (addr_of instr) /\
               Gui.loaded_op2 p2 = Some (imm_of instr) /\
               Gui.loaded_mem p2 = Some old).
  { unfold p2, Gui.step. rewrite E1. rewrite <- Hmem1, <- Hpc1, <- Hopc.
    now repeat split. }
  destruct H2 as (Hst2 & Hmem2 & Hpc2 & Hlo2 & Hl12 & Hl22 & Hlm2).
  pose proof (gui_execute_no_mnemonic p2 7 _ _ _ Hst2 Hlo2 Hl12 Hl22 Hlm2
                op_names_undefined) as E2.
  rewrite E0, E1, E2. unfold Gui.step. rewrite E2. cbn [fst snd].
  change (Gui.state (Gui.prologue p2)) with (Gui.state p2).
  change (Gui.pc (Gui.prologue p2)) with (Gui.pc p2).
  change (Gui.memory (Gui.prologue p2)) with (Gui.memory p2).
  now repeat split.
Qed.

(** X10. [run_program] on a program that reaches a word with opcode 7
    after [k] words with defined opcodes, with at least [4 * k + 3] cycles
    allowed: the call raises [IndexError] in the EXECUTE cycle of that
    word, with the first [k] instructions done and nothing else written
    to memory. *)
Theorem run_program_undefined_opcode (p : Gui.Processor)
        (done rest : list Z) (bad : Z) (max_cycles : nat) :
  Gui.program p = Some (done ++ bad :: rest) ->
  length (Gui.memory p) = 16%nat ->
  Forall defined_opcode done ->
  opcode_of bad = 7 ->
  (4 * length done + 2 < max_cycles)%nat ->
  (Gui.run_program max_cycles p).2 = inr IndexError /\
  Gui.state (Gui.run_program max_cycles p).1 = EXECUTE /\
  Gui.memory (Gui.run_program max_cycles p).1
    = fold_left exec_instr done (Gui.memory p).
Proof.
  intros Hprog Hlen Hdef Hbad Hmax.
  destruct (gui_run_program_start p _ done Hprog Hlen Hdef)
    as (Hout & Hmem & Hst & Hpc & Hprog' & Hlen').
  { intros i instr Hi. apply lookup_app_l_Some. exact Hi. }
  rewrite gui_run_program_unfold.
  set (p0 := Gui.set_state FETCH (Gui.reset p)) in *.
  set (k := (4 * length done)%nat) in *.
  destruct (gui_undefined_steps (Gui.steps k p0) _ bad Hst Hprog')
    as (H0 & H1 & H2 & Hst3 & _ & Hmem3); try assumption.
  { lia. }
  { rewrite Hpc, Nat2Z.id. now rewrite list_lookup_middle. }
  assert (Hall : forall j : nat, (j < k + 2)%nat ->
                   Gui.outcome (Gui.steps j p0) = inl true).
  { intros j Hj. destruct (Nat.lt_ge_cases j k) as [Hjk|Hjk].
    - now apply Hout.
    - replace j with (k + (j - k))%nat by lia. rewrite gui_steps_add.
      destruct (j - k)%nat as [|[|]] eqn:E; [exact H0|exact H1|lia]. }
  rewrite <- gui_steps_add in H2, Hst3, Hmem3.
  rewrite (gui_run_loop_stops (k + 2) max_cycles p0 Hall)
    by (rewrite ?H2; congruence || lia).
  rewrite H2. cbn [fst snd].
  replace (S (k + 2)) with (k + 3)%nat by lia.
  split; [reflexivity|]. split; [exact Hst3|].
  rewrite Hmem3, (Hmem k) by lia. unfold k.
  replace (4 * length done / 4)%nat with (length done)
    by (rewrite Nat.mul_comm, Nat.div_mul; lia).
  now rewrite firstn_all.
Qed.

(** [STO 0x4 0x5], then a word with opcode 7, fifty cycles allowed. *)
Lemma run_program_undefined_opcode_witness :
  Gui.program (Gui.load_program [69; 1792] Gui.init)
    = Some ([69] ++ 1792 :: []) /\
  length (Gui.memory (Gui.load_program [69; 1792] Gui.init)) = 16%nat /\
  Forall defined_opcode [69] /\
  opcode_of 1792 = 7 /\
  (4 * length [69] + 2 < 50)%nat /\
  (Gui.run_program 50 (Gui.load_program [69; 1792] Gui.init)).2
    = inr IndexError /\
  Gui.memory (Gui.run_program 50
                (Gui.load_program [69; 1792] Gui.init)).1 !! 4%nat
    = Some 5.
Proof.
  assert (Hdef : Forall defined_opcode [69]).
  { repeat constructor; vm_compute; discriminate. }
  assert (Hmax : (4 * length [69] + 2 < 50)%nat) by (cbn; lia).
  split; [reflexivity|]. split; [reflexivity|]. split; [exact Hdef|].
  split; [reflexivity|]. split; [exact Hmax|].
  destruct (run_program_undefined_opcode
              (Gui.load_program [69; 1792] Gui.init) [69] [] 1792 50
              eq_refl eq_refl Hdef eq_refl Hmax) as (Hr & _ & Hm).
  split; [exact Hr|]. rewrite Hm. reflexivity.
Defined.

(** ** [run_program] in the two files, and what it depends on *)

Lemma sim_set_state (st : FSMState) (g : Gui.Processor)
      (e : Enhanced.Processor) :
  sim g e -> sim (Gui.set_state st g) (Enhanced.set_state st e).
Proof.
  unfold sim. unfold_state.
  intros (? & ? & ? & ? & ? & ? & ? & ? & ? & ? & ? & ? & ? & ? & ?
          & ? & ? & ? & ? & ?).
  repeat split; assumption.
Qed.

Lemma sim_run_loop (n : nat) (g : Gui.Processor) (e : Enhanced.Processor) :
  sim g e ->
  sim (Gui.run_loop n g).1 (Enhanced.run_loop n e).1 /\
  (Gui.run_loop n g).2 = (Enhanced.run_loop n e).2.
Proof.
  revert g e. induction n as [|n IH]; intros g e Hsim; [now split|].
  cbn [Gui.run_loop Enhanced.run_loop]. unfold bind.
  destruct (sim_clock_cycle g e Hsim) as [Hsim' Hres].
  destruct (Gui.clock_cycle g) as [g' r], (Enhanced.clock_cycle e) as [e' r'].
  cbn [fst snd] in Hsim', Hres. subst r'.
  destruct r as [[|]|err]; [now apply IH|now split|now split].
Qed.

Lemma sim_run_calls (cs : list call) (g : Gui.Processor)
      (e : Enhanced.Processor) :
  sim g e -> sim (Gui.run_calls cs g) (Enhanced.run_calls cs e).
Proof.
  revert g e. induction cs as [|c cs IH]; intros g e Hsim; [exact Hsim|].
  apply IH, sim_apply_call, Hsim.
Qed.

(** X11. After the same [load_program] and the same later calls, the
    [run_program] methods of [simulator_gui.py] and of
    [simulator_gui_enhanced.py] return or raise the same and leave the
    same memory, program counter, control state, ALU result and
    carry-out, whatever the program and the cycle budget. *)
Theorem run_program_agrees (prog : list Z) (cs : list call)
        (max_cycles : nat) :
  let g := Gui.run_calls cs (Gui.load_program prog Gui.init) in
  let e := Enhanced.run_calls cs (Enhanced.load_program prog Enhanced.init) in
  (Gui.run_program max_cycles g).2 = (Enhanced.run_program max_cycles e).2 /\
  Gui.observe (Gui.run_program max_cycles g).1
    = Enhanced.observe (Enhanced.run_program max_cycles e).1.
Proof.
  intros g e.
  assert (Hsim : sim g e) by apply sim_run_calls, sim_loaded.
  destruct (sim_run_loop max_cycles _ _
              (sim_set_state FETCH _ _ (sim_reset g e Hsim))) as [Hs Hr].
  split; [exact Hr|]. now apply sim_observe.
Qed.

Lemma same_but_latches_step (p q : Gui.Processor) :
  same_but_latches p q ->
  same_but_latches (Gui.step p) (Gui.step q) /\
  Gui.outcome p = Gui.outcome q.
Proof.
  unfold Gui.outcome, Gui.step. rewrite !gui_clock_cycle_dispatch.
  destruct p as [mem pc st ins res cout cyc elog w prog l1 l2 lo lm].
  destruct q as [mem' pc' st' ins' res' cout' cyc' elog' w' prog'
                 l1' l2' lo' lm'].
  unfold same_but_latches. unfold_state.
  intros (<- & <- & <- & <- & <- & <- & <- & <- & <- & <- & Hl).
  destruct st; try destruct Hl as (<- & <- & <- & <-);
    unfold_method; unfold_state; case_branches; unfold_state;
    now repeat split.
Qed.

Lemma same_but_latches_run_loop (n : nat) (p q : Gui.Processor) :
  same_but_latches p q ->
  same_but_latches (Gui.run_loop n p).1 (Gui.run_loop n q).1 /\
  (Gui.run_loop n p).2 = (Gui.run_loop n q).2.
Proof.
  revert p q. induction n as [|n IH]; intros p q Hsame; [now split|].
  cbn [Gui.run_loop]. unfold bind.
  destruct (same_but_latches_step p q Hsame) as [Hsame' Hres].
  unfold Gui.step, Gui.outcome in *.
  destruct (Gui.clock_cycle p) as [p' r], (Gui.clock_cycle q) as [q' r'].
  cbn [fst snd] in Hsame', Hres. subst r'.
  destruct r as [[|]|err]; [now apply IH|now split|now split].
Qed.

(** [run_program] depends on the memory and the program only. *)
Lemma gui_run_program_inputs (p q : Gui.Processor) (max_cycles : nat) :
  Gui.memory p = Gui.memory q ->
  Gui.program p = Gui.program q ->
  same_but_latches (Gui.run_program max_cycles p).1
                   (Gui.run_program max_cycles q).1 /\
  (Gui.run_program max_cycles p).2 = (Gui.run_program max_cycles q).2.
Proof.
  intros Hmem Hprog. rewrite !gui_run_program_unfold.
  apply same_but_latches_run_loop.
  unfold same_but_latches. unfold_state. now repeat split.
Qed.

(** X12. What [run_program] returns or raises, and the memory, program
    counter, control state, ALU outputs, cycle counter, log and histories
    it leaves, depend only on the memory and the program of the processor
    it is called on: neither the registers nor the decode latches left by
    earlier cycles, which [reset] does not clear, have any influence. *)
Theorem run_program_depends_on_memory_and_program
        (p q : Gui.Processor) (max_cycles : nat) :
  Gui.memory p = Gui.memory q ->
  Gui.program p = Gui.program q ->
  (Gui.run_program max_cycles p).2 = (Gui.run_program max_cycles q).2 /\
  Gui.observe (Gui.run_program max_cycles p).1
    = Gui.observe (Gui.run_program max_cycles q).1 /\
  Gui.cycle_count (Gui.run_program max_cycles p).1
    = Gui.cycle_count (Gui.run_program max_cycles q).1 /\
  Gui.execution_log (Gui.run_program max_cycles p).1
    = Gui.execution_log (Gui.run_program max_cycles q).1 /\
  Gui.waveform_history (Gui.run_program max_cycles p).1
    = Gui.waveform_history (Gui.run_program max_cycles q).1.
Proof.
  intros Hmem Hprog.
  destruct (gui_run_program_inputs p q max_cycles Hmem Hprog)
    as [(H1 & H2 & H3 & _ & H5 & H6 & H7 & H8 & H9 & _) Hr].
  unfold Gui.observe. rewrite H1, H2, H3, H5, H6. now repeat split.
Qed.

(** A processor back at FETCH after [STO 0x4 0x5], and a new one given
    the same memory and program: different registers and latches. *)
Lemma run_program_depends_on_memory_and_program_witness :
  Gui.memory after_sto_4_5
    = Gui.memory (Gui.load_program [69]
                    (Gui.set_memory (Gui.memory after_sto_4_5) Gui.init)) /\
  Gui.program after_sto_4_5
    = Gui.program (Gui.load_program [69]
                     (Gui.set_memory (Gui.memory after_sto_4_5) Gui.init)) /\
  Gui.loaded_op1 after_sto_4_5
    <> Gui.loaded_op1
         (Gui.load_program [69]
            (Gui.set_memory (Gui.memory after_sto_4_5) Gui.init)) /\
  (Gui.run_program 3 after_sto_4_5).2
    = (Gui.run_program 3
         (Gui.load_program [69]
            (Gui.set_memory (Gui.memory after_sto_4_5) Gui.init))).2.
Proof.
  assert (Hm : Gui.memory after_sto_4_5
    = Gui.memory (Gui.load_program [69]
                    (Gui.set_memory (Gui.memory after_sto_4_5) Gui.init)))
    by (vm_compute; reflexivity).
  assert (Hp : Gui.program after_sto_4_5
    = Gui.program (Gui.load_program [69]
                     (Gui.set_memory (Gui.memory after_sto_4_5) Gui.init)))
    by (vm_compute; reflexivity).
  split; [exact Hm|]. split; [exact Hp|].
  split; [vm_compute; discriminate|].
  destruct (run_program_depends_on_memory_and_program
              after_sto_4_5
              (Gui.load_program [69]
                 (Gui.set_memory (Gui.memory after_sto_4_5) Gui.init))
              3 Hm Hp) as [H _].
  exact H.
Defined.

(** ** The built-in check of the sample program *)

(** [NOT 0xF 0x0] replaces cell 15 by its complement on four bits. *)
Lemma exec_instr_not_15 (mem : list Z) (old : Z) :
  mem !! 15%nat = Some old ->
  exec_instr mem 1776 = <[15%nat := 15 - old `mod` 16]> mem.
Proof.
  intros Hold. unfold exec_instr.
  change (Z.to_nat (addr_of 1776)) with 15%nat. rewrite Hold.
  rewrite ALU_agrees_with_reference.
  change (opcode_of 1776) with 6. change (imm_of 1776) with 0.
  unfold operand_a. change (opcode_of 1776 =? 0) with false.
  reflexivity.
Qed.

(** The sample program writes 11 to cell 4 and 8 to cell 1 whatever they
    held, and complements cell 15. *)
Lemma default_program_effect (mem : list Z) (old : Z) :
  length mem = 16%nat ->
  mem !! 15%nat = Some old ->
  fold_left exec_instr default_program mem
    = <[15%nat := 15 - old `mod` 16]> (<[1%nat := 8]> (<[4%nat := 11]> mem)).
Proof.
  intros Hlen Hold.
  assert (Hfour : fold_left exec_instr [69; 326; 31; 535] mem
                  = <[1%nat := 8]> (<[4%nat := 11]> mem)).
  { do 17 (destruct mem as [|? mem]; try discriminate Hlen).
    vm_compute. reflexivity. }
  change default_program with ([69; 326; 31; 535] ++ [1776]).
  rewrite fold_left_app, Hfour. cbn [fold_left]. apply exec_instr_not_15.
  rewrite !list_lookup_insert_ne by lia. exact Hold.
Qed.

(** [check_results] reads cells 1, 4 and 15 only. *)
Lemma check_results_cells (c0 c1 c2 c3 c4 c5 c6 c7 c8 c9 c10 c11 c12 c13
                           c14 c15 : Z) :
  check_results [c0; c1; c2; c3; c4; c5; c6; c7; c8; c9; c10; c11; c12;
                 c13; c14; c15]
    = (c1 =? 8) && ((c4 =? 11) && ((c15 =? 15) && true)).
Proof. reflexivity. Qed.

(** X13. Running the sample program of [load_default_program] to
    completion on a processor with sixteen memory cells makes
    [check_results] pass exactly when cell 15 held 0 (modulo 16) before
    the run: cells 1 and 4 are overwritten, cell 15 is complemented. *)
Theorem check_results_needs_cell_15_clear (p : Gui.Processor) (old : Z)
        (max_cycles : nat) :
  length (Gui.memory p) = 16%nat ->
  Gui.memory p !! 15%nat = Some old ->
  (20 < max_cycles)%nat ->
  (Gui.run_program max_cycles (Gui.load_program default_program p)).2
    = inl true /\
  check_results
    (Gui.memory
       (Gui.run_program max_cycles (Gui.load_program default_program p)).1)
    = (old `mod` 16 =? 0).
Proof.
  intros Hlen Hold Hmax.
  assert (Hdef : Forall defined_opcode default_program).
  { repeat constructor; vm_compute; discriminate. }
  destruct (gui_run_program_complete
              (Gui.load_program default_program p) default_program max_cycles
              eq_refl Hlen Hdef ltac:(cbn; lia)) as (Hr & Hm & _).
  split; [exact Hr|]. rewrite Hm.
  change (Gui.memory (Gui.load_program default_program p))
    with (Gui.memory p).
  rewrite (default_program_effect _ old Hlen Hold).
  pose proof (Z.mod_pos_bound old 16 ltac:(lia)) as Hrange.
  set (r := old `mod` 16) in *. clearbody r. clear Hold Hm.
  remember (Gui.memory p) as mem eqn:Hmem. clear Hmem.
  do 17 (destruct mem as [|? mem]; try discriminate Hlen).
  cbn [insert list_insert]. rewrite check_results_cells.
  change (8 =? 8) with true. change (11 =? 11) with true. cbn [andb].
  rewrite andb_true_r.
  destruct (Z.eqb_spec (15 - r) 15), (Z.eqb_spec r 0); try lia; reflexivity.
Qed.

(** A new processor passes; the same processor run a second time, cell
    15 now holding 15, fails. *)
Lemma check_results_needs_cell_15_clear_witness :
  length (Gui.memory Gui.init) = 16%nat /\
  Gui.memory Gui.init !! 15%nat = Some 0 /\
  (20 < 100)%nat /\
  check_results
    (Gui.memory
       (Gui.run_program 100 (Gui.load_program default_program Gui.init)).1)
    = true.
Proof.
  split; [reflexivity|]. split; [reflexivity|]. split; [lia|].
  apply (check_results_needs_cell_15_clear Gui.init 0 100 eq_refl eq_refl).
  lia.
Defined.

(** ** The assembler *)

Lemma encode_check_all : forall_alu_input encode_check = true.
Proof. vm_compute. reflexivity. Qed.

Lemma encode_instruction_fields (opcode op1 op2 : Z) :
  0 <= opcode <= 7 -> 0 <= op1 <= 15 -> 0 <= op2 <= 15 ->
  opcode_of (encode_instruction opcode op1 op2) = opcode /\
  addr_of (encode_instruction opcode op1 op2) = op1 /\
  imm_of (encode_instruction opcode op1 op2) = op2 /\
  encode_instruction opcode op1 op2 = 256 * opcode + 16 * op1 + op2.
Proof.
  intros Ho H1 H2.
  pose proof (forall_alu_input_spec _ encode_check_all op1 op2 opcode false
                H1 H2 Ho) as H.
  unfold encode_check in H. cbv zeta in H.
  repeat (apply andb_true_iff in H as [H ?]).
  repeat match goal with
         | H : (_ =? _) = true |- _ => apply Z.eqb_eq in H
         end.
  now repeat split.
Qed.

(** X14. The word that [compile_assembly] builds from an opcode and two
    operands of any sign and size decodes, in the LOAD state, to the same
    opcode and to the operands modulo 16; it is the 11-bit number
    [256 * opcode + 16 * (op1 mod 16) + (op2 mod 16)]. *)
Theorem encode_then_decode (opcode n1 n2 : Z) :
  0 <= opcode <= 7 ->
  let w := encode_instruction opcode (Z.land n1 15) (Z.land n2 15) in
  opcode_of w = opcode /\
  addr_of w = n1 `mod` 16 /\
  imm_of w = n2 `mod` 16 /\
  w = 256 * opcode + 16 * (n1 `mod` 16) + n2 `mod` 16.
Proof.
  intros Ho w. subst w. rewrite !land_15_mod.
  pose proof (Z.mod_pos_bound n1 16 ltac:(lia)).
  pose proof (Z.mod_pos_bound n2 16 ltac:(lia)).
  apply encode_instruction_fields; lia.
Qed.

(** [SUB -1, 0x17]: address 15, immediate 7. *)
Lemma encode_then_decode_witness :
  0 <= 2 <= 7 /\
  opcode_of (encode_instruction 2 (Z.land (-1) 15) (Z.land 23 15)) = 2 /\
  addr_of (encode_instruction 2 (Z.land (-1) 15) (Z.land 23 15)) = 15 /\
  imm_of (encode_instruction 2 (Z.land (-1) 15) (Z.land 23 15)) = 7.
Proof.
  split; [lia|].
  destruct (encode_then_decode 2 (-1) 23 ltac:(lia)) as (H1 & H2 & H3 & _).
  repeat split; assumption.
Defined.

Lemma opcodes_range (mnemonic : string) (opcode : Z) :
  dict_get opcodes mnemonic = Some opcode -> 0 <= opcode <= 6.
Proof.
  unfold opcodes. cbn [dict_get].
  repeat match goal with
         | |- context [if ?x then _ else _] => destruct x
         end; intros H; inversion H; lia.
Qed.

Lemma parse_operands_range (py : PyText) (p1 : string) (rest : list string)
      (op1 op2 : Z) :
  parse_operands py p1 rest = Some (op1, op2) ->
  0 <= op1 <= 15 /\ 0 <= op2 <= 15.
Proof.
  unfold parse_operands.
  destruct (int_literal py p1) as [n1|]; [|discriminate].
  pose proof (land_15_range n1).
  destruct rest as [|p2 rest].
  - intros H'. inversion H'. lia.
  - destruct (int_literal py p2) as [n2|]; [|discriminate].
    pose proof (land_15_range n2). intros H'. inversion H'. lia.
Qed.

(** A machine word as the assembler emits them. *)
Lemma assembled_word_range (opcode op1 op2 : Z) :
  0 <= opcode <= 6 -> 0 <= op1 <= 15 -> 0 <= op2 <= 15 ->
  0 <= encode_instruction opcode op1 op2 < 1792 /\
  defined_opcode (encode_instruction opcode op1 op2).
Proof.
  intros Ho H1 H2.
  destruct (encode_instruction_fields opcode op1 op2) as (Hopc & _ & _ & Hw);
    try lia.
  unfold defined_opcode. rewrite Hopc, Hw. lia.
Qed.

Lemma assemble_line_words (py : PyText) (acc : list Z * list AsmError)
      (numbered : Z * string) :
  Forall (fun w => 0 <= w < 1792 /\ defined_opcode w) acc.1 ->
  Forall (fun w => 0 <= w < 1792 /\ defined_opcode w)
         (assemble_line py acc numbered).1.
Proof.
  destruct acc as [program errors], numbered as [line_num line].
  cbn [fst]. intros Hacc. unfold assemble_line.
  destruct (String.eqb _ _); [exact Hacc|].
  destruct (split_parts py _) as [|p0 [|p1 rest]]; try exact Hacc.
  destruct (dict_get opcodes _) as [opcode|] eqn:Hopc; [|exact Hacc].
  destruct (parse_operands py p1 rest) as [[op1 op2]|] eqn:Hops;
    [|exact Hacc].
  cbn [fst]. apply Forall_app. split; [exact Hacc|].
  apply Forall_singleton.
  apply opcodes_range in Hopc. apply parse_operands_range in Hops.
  apply assembled_word_range; lia.
Qed.

Lemma assemble_words (py : PyText) (lines : list string) :
  Forall (fun w => 0 <= w < 1792 /\ defined_opcode w) (assemble py lines).1.
Proof.
  unfold assemble.
  assert (Hgen : forall numbered acc,
            Forall (fun w => 0 <= w < 1792 /\ defined_opcode w) acc.1 ->
            Forall (fun w => 0 <= w < 1792 /\ defined_opcode w)
                   (fold_left (assemble_line py) numbered acc).1).
  { induction numbered as [|x numbered IH]; intros acc Hacc; [exact Hacc|].
    cbn [fold_left]. apply IH, assemble_line_words, Hacc. }
  apply Hgen. constructor.
Qed.

(** X15. Whatever the text and however Python splits and converts it,
    every word of the machine code that [compile_assembly] builds lies
    between 0 and [0x6FF] and has one of the seven defined opcodes: the
    assembler never emits opcode 7. *)
Theorem assembler_emits_defined_opcodes (py : PyText) (lines : list string) :
  Forall (fun w => 0 <= w < 1792 /\ defined_opcode w) (assemble py lines).1.
Proof.
  unfold assemble.
  assert (Hgen : forall numbered acc,
            Forall (fun w => 0 <= w < 1792 /\ defined_opcode w) acc.1 ->
            Forall (fun w => 0 <= w < 1792 /\ defined_opcode w)
                   (fold_left (assemble_line py) numbered acc).1).
  { induction numbered as [|x numbered IH]; intros acc Hacc; [exact Hacc|].
    cbn [fold_left]. apply IH, assemble_line_words, Hacc. }
  apply Hgen. constructor.
Qed.

(** X16. The machine code of any text, loaded into a processor with
    sixteen memory cells and run with more than four cycles per word
    allowed, runs to completion: [run_program] returns [True] and raises
    nothing. *)
Theorem assembled_program_runs (py : PyText) (lines : list string)
        (p : Gui.Processor) (max_cycles : nat) :
  length (Gui.memory p) = 16%nat ->
  (4 * length (assemble py lines).1 < max_cycles)%nat ->
  (Gui.run_program max_cycles
     (Gui.load_program (assemble py lines).1 p)).2 = inl true /\
  Gui.pc (Gui.run_program max_cycles
            (Gui.load_program (assemble py lines).1 p)).1
    = Z.of_nat (length (assemble py lines).1).
Proof.
  intros Hlen Hmax.
  assert (Hdef : Forall defined_opcode (assemble py lines).1).
  { eapply Forall_impl; [apply assemble_words|]. now intros w [_ Hw]. }
  destruct (gui_run_program_complete
              (Gui.load_program (assemble py lines).1 p)
              (assemble py lines).1 max_cycles eq_refl Hlen Hdef Hmax)
    as (Hr & _ & Hpc & _).
  now split.
Qed.

Lemma assembled_program_runs_witness :
  length (Gui.memory Gui.init) = 16%nat /\
  (4 * length (assemble py_words ["STO 4 5"%string]).1 < 10)%nat /\
  (Gui.run_program 10
     (Gui.load_program (assemble py_words ["STO 4 5"%string]).1 Gui.init)).2
    = inl true.
Proof.
  assert (Hmax : (4 * length (assemble py_words ["STO 4 5"%string]).1
                  < 10)%nat) by (vm_compute; lia).
  split; [reflexivity|]. split; [exact Hmax|].
  destruct (assembled_program_runs py_words ["STO 4 5"%string] Gui.init 10
              eq_refl Hmax) as [Hr _].
  exact Hr.
Defined.

(** X17. [compile_assembly] never leaves the compiled program in the
    processor. When a line is in error the processor is not touched; when
    none is, [load_program] of the compiled code is followed by
    [reset_processor], which reloads the sample program: the processor
    ends in INIT with the program counter and the cycle counter at 0, the
    sample program loaded, and the memory as it was. *)
Theorem compile_assembly_loads_sample (py : PyText) (lines : list string)
        (p : Gui.Processor) :
  match (assemble py lines).2 with
  | _ :: _ => gui_compile_assembly py lines p = p
  | [] =>
      Gui.program (gui_compile_assembly py lines p) = Some default_program /\
      Gui.pc (gui_compile_assembly py lines p) = 0 /\
      Gui.state (gui_compile_assembly py lines p) = INIT /\
      Gui.cycle_count (gui_compile_assembly py lines p) = 0 /\
      Gui.memory (gui_compile_assembly py lines p) = Gui.memory p
  end.
Proof.
  unfold gui_compile_assembly.
  destruct (assemble py lines) as [program [|e errors]]; cbn [snd];
    [now repeat split|reflexivity].
Qed.

Lemma assemble_line_count (py : PyText) (acc : list Z * list AsmError)
      (numbered : Z * string) :
  (length (assemble_line py acc numbered).1
   + length (assemble_line py acc numbered).2
   = length acc.1 + length acc.2
     + (if String.eqb (strip_comment py numbered.2) EmptyString
        then 0 else 1))%nat.
Proof.
  destruct acc as [program errors], numbered as [line_num line].
  cbn [fst snd]. unfold assemble_line.
  destruct (String.eqb _ _); [cbn [fst snd]; lia|].
  destruct (split_parts py _) as [|p0 [|p1 rest]];
    cbn [fst snd]; rewrite ?length_app; cbn [length]; try lia.
  destruct (dict_get opcodes _) as [opcode|];
    cbn [fst snd]; rewrite ?length_app; cbn [length]; try lia.
  destruct (parse_operands py p1 rest) as [[op1 op2]|];
    cbn [fst snd]; rewrite ?length_app; cbn [length]; lia.
Qed.

Lemma enumerate_snd {A} (start : Z) (l : list A) :
  map snd (enumerate start l) = l.
Proof.
  revert start. induction l as [|x l IH]; intros start; [reflexivity|].
  cbn. now rewrite IH.
Qed.

Lemma assemble_fold_count (py : PyText) (numbered : list (Z * string))
      (acc : list Z * list AsmError) :
  (length (fold_left (assemble_line py) numbered acc).1
   + length (fold_left (assemble_line py) numbered acc).2
   = length acc.1 + length acc.2
     + length (filter (fun line =>
                 negb (String.eqb (strip_comment py line) EmptyString))
               (map snd numbered)))%nat.
Proof.
  revert acc. induction numbered as [|x numbered IH]; intros acc.
  - cbn. lia.
  - cbn [fold_left map]. rewrite IH, assemble_line_count.
    rewrite filter_cons.
    destruct (String.eqb (strip_comment py x.2) EmptyString) eqn:E.
    + rewrite decide_False by (cbn; auto). lia.
    + rewrite decide_True by (cbn; auto). cbn [length]. lia.
Qed.

(** X18. Every line of the text that is not empty once its comment is
    stripped gives either one machine word or one error, never both and
    never neither: the words and the errors together are as many as such
    lines. *)
Theorem assembler_accounts_for_every_line (py : PyText)
        (lines : list string) :
  (length (assemble py lines).1 + length (assemble py lines).2
   = length (filter (fun line =>
               negb (String.eqb (strip_comment py line) EmptyString))
             lines))%nat.
Proof.
  unfold assemble. rewrite assemble_fold_count, enumerate_snd. cbn. lia.
Qed.

(** ** The adders on arbitrary integers *)

(** X19. The one-bit full adder adds its three input bits: its sum and
    carry outputs are the low and the high bit of [a + b + cin]; the sum
    is the exclusive or of the three inputs and the carry is set when at
    least two of them are. *)
Theorem FA_1b_adds_three_bits (a b cin : bool) :
  Z.b2z (FA_1b_compute a b cin).1 + 2 * Z.b2z (FA_1b_compute a b cin).2
    = Z.b2z a + Z.b2z b + Z.b2z cin /\
  (FA_1b_compute a b cin).1 = xorb (xorb a b) cin /\
  (FA_1b_compute a b cin).2 = (a && b) || (a && cin) || (b && cin).
Proof. now destruct a, b, cin. Qed.

(** The adder reads bits 0 to 3 of its operands and nothing else. *)
Lemma low_bit_mod_16 (a i : Z) :
  0 <= i < 4 ->
  Z.land (Z.shiftr (a `mod` 16) i) 1 = Z.land (Z.shiftr a i) 1.
Proof.
  intros Hi. apply Z.bits_inj'. intros n Hn.
  rewrite !Z.land_spec, !Z.shiftr_spec by lia.
  destruct (Z.eq_dec n 0) as [->|Hne].
  - change 16 with (2 ^ 4). now rewrite Z.mod_pow2_bits_low by lia.
  - replace (Z.testbit 1 n) with false; [now rewrite !andb_false_r|].
    symmetry. change 1 with (Z.ones 1). apply Z.ones_spec_high. lia.
Qed.

Lemma Adder_4b_masks_inputs (a b : Z) (cin : bool) :
  Adder_4b_compute a b cin = Adder_4b_compute (a `mod` 16) (b `mod` 16) cin.
Proof.
  unfold Adder_4b_compute, range. cbn [seq map fold_left Z.of_nat].
  unfold Adder_4b_body. cbn [Pos.of_succ_nat Pos.succ].
  now rewrite !low_bit_mod_16 by lia.
Qed.

(** X20. On any integers, negative or wider than four bits,
    [Adder_4b.compute] adds the operands taken modulo 16: the sum is
    [(a mod 16 + b mod 16 + cin) mod 16] and the carry-out tells whether
    that total reaches 16. *)
Theorem Adder_4b_any_integers (a b : Z) (cin : bool) :
  Adder_4b_compute a b cin
    = ((a `mod` 16 + b `mod` 16 + Z.b2z cin) `mod` 16,
       16 <=? a `mod` 16 + b `mod` 16 + Z.b2z cin).
Proof.
  rewrite Adder_4b_masks_inputs.
  pose proof (Z.mod_pos_bound a 16 ltac:(lia)) as Ha.
  pose proof (Z.mod_pos_bound b 16 ltac:(lia)) as Hb.
  pose proof (forall_word4_spec _ Adder_4b_check_all
                (a `mod` 16) (b `mod` 16) cin ltac:(lia) ltac:(lia)) as H.
  unfold Adder_4b_check in H.
  destruct (Adder_4b_compute _ _ _) as [s cout].
  apply andb_true_iff in H as [Hs Hc].
  apply Z.eqb_eq in Hs. apply Bool.eqb_prop in Hc. now subst.
Qed.

(** Three cycles on a new processor: three samples, clock 1, 0, 1. *)
Lemma recorder_tracks_cycle_count_witness :
  Gui.cycle_count (Gui.run_calls [CallClock; CallClock; CallClock] Gui.init)
    = 3 /\
  Gui.clk (Gui.waveform_history
             (Gui.run_calls [CallClock; CallClock; CallClock] Gui.init))
    = [1; 0; 1] /\
  Gui.cycle_count (Gui.run_calls [CallClock; CallClock; CallClock] Gui.init)
    = Z.of_nat
        (length
           (Gui.clk (Gui.waveform_history
                       (Gui.run_calls [CallClock; CallClock; CallClock]
                          Gui.init)))).
Proof.
  split; [reflexivity|]. split; [reflexivity|].
  exact (proj1 (recorder_tracks_cycle_count
                  [CallClock; CallClock; CallClock])).
Defined.

(** ** The meaning of the instructions *)

(** X21. An instruction with a defined opcode, on an addressed cell that
    holds a four-bit value [old], writes back: the immediate for STO;
    [(old + imm) mod 16] for ADD; [(old - imm) mod 16] for SUB; the
    bitwise AND, OR and XOR of [old] and the immediate; and [15 - old]
    for NOT, whose immediate is ignored. *)
Theorem instruction_meaning (mem : list Z) (instr old : Z) :
  mem !! Z.to_nat (addr_of instr) = Some old ->
  0 <= old <= 15 ->
  defined_opcode instr ->
  exec_instr mem instr
    = <[Z.to_nat (addr_of instr)
        := isa_result (opcode_of instr) old (imm_of instr)]> mem.
Proof.
  intros Hold Hrange Hdef. unfold exec_instr. rewrite Hold. f_equal.
  rewrite ALU_agrees_with_reference. unfold ALU_reference, operand_a.
  pose proof (land_7_range (Z.shiftr instr 8)) as Hopc.
  pose proof (land_15_range instr) as Himm.
  fold (opcode_of instr) in Hopc. fold (imm_of instr) in Himm.
  unfold defined_opcode in Hdef.
  rewrite (Z.mod_small (opcode_of instr) 8) by lia.
  rewrite (Z.mod_small (imm_of instr) 16) by lia.
  unfold isa_result.
  destruct (Z.eqb_spec (opcode_of instr) 0) as [E0|E0]; cbn [fst].
  - apply Z.mod_small. lia.
  - rewrite (Z.mod_small old 16) by lia.
    repeat match goal with
           | |- context [if ?x =? ?y then _ else _] =>
               destruct (Z.eqb_spec x y)
           end; cbn [fst]; try reflexivity; try lia.
    now rewrite Z.add_0_r.
Qed.

(** [SUB 0x1 0x7] on a cell that holds 15 writes 8. *)
Lemma instruction_meaning_witness :
  [0; 15] !! Z.to_nat (addr_of 535) = Some 15 /\
  0 <= 15 <= 15 /\
  defined_opcode 535 /\
  exec_instr [0; 15] 535 = [0; 8].
Proof.
  assert (Hdef : defined_opcode 535) by (vm_compute; discriminate).
  split; [reflexivity|]. split; [lia|]. split; [exact Hdef|].
  rewrite (instruction_meaning [0; 15] 535 15 eq_refl ltac:(lia) Hdef).
  reflexivity.
Defined.
